(** * The CCXT exchange adapter of Catalyst

    A shallow embedding of [catalyst/exchange/ccxt/ccxt_exchange.py]
    (class [CCXT]) and the properties of its symbol codec, timeframe
    translation, asset resolution and market-data normalisation.

    Python strings are byte strings ([string], one [ascii] per
    character); [upper]/[lower] change ASCII letters only, which is
    what [str.upper] and [str.lower] do on ASCII text: a theorem that
    depends on the case of the characters of a string assumes the
    string to be ASCII.  Python exceptions are the [Raise] branch of
    [result].  The collaborators
    of the class that are not part of it (the exchange library, the
    symbol catalogs, pandas, [mixin_market_params]) are the variables
    of section [CCXT]. *)

From Stdlib Require Import ZArith NArith String Ascii List Lia Bool.
From Stdlib Require Import DecimalString DecimalN Floats.SpecFloat.
From stdpp Require Import base option list gmap strings.
From Equations Require Import Equations.

Open Scope string_scope.

(** ** Exceptions *)

Inductive exn : Type :=
| InvalidHistoryFrequencyError (frequency : string)
| ValueError
| UnboundLocalError
| IndexError
| KeyError (key : string)
| TypeError
| AttributeError
| OverflowError.

Inductive result (A : Type) : Type :=
| Ok (a : A)
| Raise (e : exn).
Arguments Ok {A} a.
Arguments Raise {A} e.

Definition bind {A B} (r : result A) (k : A -> result B) : result B :=
  match r with
  | Ok a => k a
  | Raise e => Raise e
  end.

Notation "'let*' x := r 'in' k" := (bind r (fun x => k))
  (at level 10, x name, r at level 100, k at level 200).

(** [for x in xs: acc = body acc x], stopping at the first exception. *)
Fixpoint for_each {A S} (body : S -> A -> result S) (xs : list A) (acc : S)
  : result S :=
  match xs with
  | [] => Ok acc
  | x :: xs' => let* acc' := body acc x in for_each body xs' acc'
  end.

(** ** Python strings *)

Module Str.

Definition code (c : ascii) : N := N_of_ascii c.

Definition is_upper (c : ascii) : bool := (65 <=? code c)%N && (code c <=? 90)%N.
Definition is_lower (c : ascii) : bool := (97 <=? code c)%N && (code c <=? 122)%N.
Definition is_digit (c : ascii) : bool := (48 <=? code c)%N && (code c <=? 57)%N.
Definition is_ascii (c : ascii) : bool := (code c <? 128)%N.

Definition lower_char (c : ascii) : ascii :=
  if is_upper c then ascii_of_N (code c + 32) else c.
Definition upper_char (c : ascii) : ascii :=
  if is_lower c then ascii_of_N (code c - 32) else c.

Fixpoint map (f : ascii -> ascii) (s : string) : string :=
  match s with
  | EmptyString => EmptyString
  | String c s' => String (f c) (map f s')
  end.

(** [s.lower()] and [s.upper()] *)
Definition lower : string -> string := map lower_char.
Definition upper : string -> string := map upper_char.

(** [s.split(sep)] for a one-character separator: never empty. *)
Fixpoint split (sep : ascii) (s : string) : list string :=
  match s with
  | EmptyString => [EmptyString]
  | String c s' =>
      if Ascii.eqb c sep then EmptyString :: split sep s'
      else match split sep s' with
           | p :: ps => String c p :: ps
           | [] => [String c EmptyString]
           end
  end.

Fixpoint count (c : ascii) (s : string) : nat :=
  match s with
  | EmptyString => 0
  | String d s' => (if Ascii.eqb d c then 1 else 0) + count c s'
  end.

Fixpoint forallb (p : ascii -> bool) (s : string) : bool :=
  match s with
  | EmptyString => true
  | String c s' => p c && forallb p s'
  end.

(** the characters [int()] skips around a number *)
Definition is_space (c : ascii) : bool :=
  ((9 <=? code c)%N && (code c <=? 13)%N) || (code c =? 32)%N.

Fixpoint lstrip (s : string) : string :=
  match s with
  | String c s' => if is_space c then lstrip s' else s
  | EmptyString => EmptyString
  end.

Fixpoint rstrip (s : string) : string :=
  match s with
  | EmptyString => EmptyString
  | String c s' =>
      match rstrip s' with
      | EmptyString => if is_space c then EmptyString else String c EmptyString
      | t => String c t
      end
  end.

Definition strip (s : string) : string := rstrip (lstrip s).

End Str.

(** [parts[i]] *)
Definition index {A} (l : list A) (i : nat) : result A :=
  match nth_error l i with
  | Some x => Ok x
  | None => Raise IndexError
  end.

(** ** Python integers: [int(str)] and ['{}'.format(int)] *)

(** Underscores may only separate digits (PEP 515). *)
Fixpoint drop_underscores (after_digit : bool) (s : string) : option string :=
  match s with
  | EmptyString => if after_digit then Some EmptyString else None
  | String c s' =>
      if Ascii.eqb c "_" then
        if after_digit then drop_underscores false s' else None
      else String c <$> drop_underscores (Str.is_digit c) s'
  end.

Definition py_int_digits (s : string) : result Z :=
  match drop_underscores false s with
  | Some ds =>
      match NilZero.uint_of_string ds with
      | Some u => Ok (Z.of_N (N.of_uint u))
      | None => Raise ValueError
      end
  | None => Raise ValueError
  end.

Definition py_int (s : string) : result Z :=
  match Str.strip s with
  | String "-" body => let* n := py_int_digits body in Ok (- n)%Z
  | String "+" body => py_int_digits body
  | body => py_int_digits body
  end.

Definition str_of_N (n : N) : string := NilEmpty.string_of_uint (N.to_uint n).

(** ['{}'.format(n)] *)
Definition format_int (n : Z) : string :=
  match n with
  | Zneg p => String "-" (str_of_N (Npos p))
  | _ => str_of_N (Z.to_N n)
  end.

(** ** Python values

    What the exchange library, the symbol catalogs and pandas hand to
    the adapter: [None], integers, binary64 floats, strings, lists,
    dictionaries (in insertion order) and pandas timestamps
    (nanoseconds since the epoch, or [NaT]). *)

#[warnings="-register-all"]
Inductive value : Type :=
| VNone
| VInt (n : Z)
| VFloat (f : spec_float)
| VStr (s : string)
| VList (items : list value)
| VDict (items : list (string * value))
| VTimestamp (ns : Z)
| VNaT.

(** [1.0] *)
Definition float_one : spec_float := S754_finite false 4503599627370496 (-52).

(** [float(n)] for an integer: round to nearest even, [OverflowError]
    beyond the binary64 range. *)
Definition float_of_int (n : Z) : result spec_float :=
  match binary_normalize 53 1024 n 0 false with
  | S754_infinity _ => Raise OverflowError
  | f => Ok f
  end.

(** [v[i]] *)
Definition getitem (v : value) (i : nat) : result value :=
  match v with
  | VList items => index items i
  | VStr s =>
      match String.get i s with
      | Some c => Ok (VStr (String c EmptyString))
      | None => Raise IndexError
      end
  | VDict items => Raise (KeyError (format_int (Z.of_nat i)))
  | _ => Raise TypeError
  end.

(** [for x in v] *)
Definition iterate (v : value) : result (list value) :=
  match v with
  | VList items => Ok items
  | VStr s => Ok ((fun c => VStr (String c EmptyString)) <$> list_ascii_of_string s)
  | VDict items => Ok ((fun kv => VStr kv.1) <$> items)
  | _ => Raise TypeError
  end.

(** ** Trading pairs and raw markets *)

(** Modelled from the spec: [TradingPair] ([catalyst.assets._assets] is
    not among the sources).  It has the attributes of the data model
    (symbol, exchange, data_source, exchange_symbol, the optional
    validity window, leverage with default 1.0, the optional display
    name); constructed from keyword arguments, it keeps each one it is
    given, an absent optional one is [None]. *)
Record TradingPair : Type := mkTradingPair {
  symbol : value;
  exchange : value;
  data_source : value;
  exchange_symbol : value;
  start_date : value;
  end_date : value;
  end_daily : value;
  end_minute : value;
  leverage : value;
  asset_name : value;
  kwargs : gmap string value
}.

Definition kwarg (params : gmap string value) (k : string) (dflt : value) : value :=
  default dflt (params !! k).

Definition TradingPair_init (params : gmap string value) : TradingPair :=
  {| symbol := kwarg params "symbol" VNone;
     exchange := kwarg params "exchange" VNone;
     data_source := kwarg params "data_source" VNone;
     exchange_symbol := kwarg params "exchange_symbol" VNone;
     start_date := kwarg params "start_date" VNone;
     end_date := kwarg params "end_date" VNone;
     end_daily := kwarg params "end_daily" VNone;
     end_minute := kwarg params "end_minute" VNone;
     leverage := kwarg params "leverage" (VFloat float_one);
     asset_name := kwarg params "asset_name" VNone;
     kwargs := params |}.

(** A raw market descriptor of the exchange: [id], [symbol] and the
    other fields it may carry. *)
Record market : Type := mkMarket {
  market_id : string;
  market_symbol : string;
  market_extra : gmap string value
}.

(** ** Symbol codec *)

(** [asset.symbol.split('_')] *)
Definition symbol_parts (asset : TradingPair) : result (list string) :=
  match symbol asset with
  | VStr s => Ok (Str.split "_" s)
  | _ => Raise AttributeError
  end.

Definition get_symbol (asset : TradingPair) : result string :=
  let* parts := symbol_parts asset in
  let* p0 := index parts 0 in
  let* p1 := index parts 1 in
  Ok (Str.upper p0 ++ "/" ++ Str.upper p1).

Definition get_catalyst_symbol (m : market) : result string :=
  let parts := Str.split "/" (market_symbol m) in
  let* p0 := index parts 0 in
  let* p1 := index parts 1 in
  Ok (Str.lower p0 ++ "_" ++ Str.lower p1).

(** ** Timeframe translation *)

Module Re.

(** group 2, one of [m M d D h H T], under [re.I] *)
Definition is_unit (c : ascii) : bool :=
  let l := Str.lower_char c in
  Ascii.eqb l "m" || Ascii.eqb l "d" || Ascii.eqb l "h" || Ascii.eqb l "t".

Definition newline : ascii := ascii_of_N 10.

(** The starred dot of group 1 followed by group 2, at the head of [s]:
    the dot takes any character but a newline and the star is greedy,
    so the unit is the last one the line allows.  Returns what the
    starred dot took and the unit. *)
Fixpoint dot_star_unit (s : string) : option (string * ascii) :=
  match s with
  | EmptyString => None
  | String c s' =>
      if Ascii.eqb c newline then None
      else match dot_star_unit s' with
           | Some (g, u) => Some (String c g, u)
           | None => if is_unit c then Some (EmptyString, c) else None
           end
  end.

(** [re.match] of the frequency pattern at the start of [freq], under
    [re.M | re.I]: an optional group 1 (a digit [0-9], then a greedy
    starred dot) and group 2 (a unit letter).  [None], or groups 1 and
    2 of the match. *)
Definition match_freq (freq : string) : option (option string * ascii) :=
  match freq with
  | EmptyString => None
  | String c s' =>
      if Str.is_digit c then
        match dot_star_unit s' with
        | Some (g, u) => Some (Some (String c g), u)
        | None => None
        end
      else if is_unit c then Some (None, c)
      else None
  end.

End Re.

Definition get_timeframe (freq : string) : result string :=
  match Re.match_freq freq with
  | Some (group1, unit) =>
      let* candle_size :=
        match group1 with
        | Some g => py_int g
        | None => Ok 1%Z
        end in
      if Ascii.eqb (Str.lower_char unit) "d" then
        Ok (format_int candle_size ++ "d")
      else if Ascii.eqb (Str.lower_char unit) "m" || Ascii.eqb unit "T" then
        Ok (format_int candle_size ++ "m")
      else if Ascii.eqb (Str.lower_char unit) "h" || Ascii.eqb unit "T" then
        Ok (format_int candle_size ++ "h")
      else Raise UnboundLocalError
  | None => Raise (InvalidHistoryFrequencyError freq)
  end.


(** ** The adapter *)

(** [d[k]] on a dictionary *)
Definition dict_get (d : gmap string value) (k : string) : result value :=
  match d !! k with
  | Some v => Ok v
  | None => Raise (KeyError k)
  end.

(** [v != s] for a string literal [s] *)
Definition ne_str (v : value) (s : string) : bool :=
  match v with
  | VStr t => negb (String.eqb t s)
  | _ => true
  end.

(** [{k.lower(): v for k, v in symbol_map.items()}]: a later key wins. *)
Definition assets_lower (symbol_map : list (string * gmap string value))
  : gmap string (gmap string value) :=
  foldl (fun acc kv => <[Str.lower kv.1 := kv.2]> acc) ∅ symbol_map.

Fixpoint map_result {A B} (f : A -> result B) (xs : list A) : result (list B) :=
  match xs with
  | [] => Ok []
  | x :: xs' =>
      let* y := f x in
      let* ys := map_result f xs' in
      Ok (y :: ys)
  end.

(** Requests sent to the exchange. *)
Inductive api_call : Type :=
| FetchOhlcv (symbol timeframe : string) (since : Z) (limit : value).

Section CCXT.

(** [self.name] *)
Variable name : string.

(** [Exchange.fetch_symbol_map(is_local)]: the items of the catalog, or
    [None] when it raises [ExchangeSymbolsNotFound]. *)
Variable fetch_symbol_map : bool -> option (list (string * gmap string value)).

(** [exchange_utils.mixin_market_params(name, params, market)]: the
    [params] it leaves behind. *)
Variable mixin_market_params :
  string -> gmap string value -> market -> result (gmap string value).

(** pandas: [pd.to_datetime(x, utc=True)] and
    [pd.to_datetime(x, unit='ms', utc=True)] *)
Variable to_datetime : value -> result value.
Variable to_datetime_ms : value -> result value.

(** [exchange_utils.from_ms_timestamp] *)
Variable from_ms_timestamp : value -> result value.

(** pandas:
    [int((start_dt - pd.to_datetime('1970-1-1', utc=True)).total_seconds())] *)
Variable seconds_since_epoch : value -> result Z.

(** [float(s)] on text *)
Variable float_of_str : string -> result spec_float.

(** [self.api.fetch_ohlcv] and [self.api.fetch_order_book] *)
Variable fetch_ohlcv : string -> string -> Z -> value -> result value.
Variable fetch_order_book :
  string -> gmap string value -> result (gmap string value).

(** [self.api.fetch_ticker] *)
Variable fetch_ticker : string -> result (gmap string value).

Definition _fetch_symbol_map (is_local : bool)
  : option (list (string * gmap string value)) :=
  fetch_symbol_map is_local.

(** The only recursive call of [_fetch_asset] goes from the remote
    catalog to the local one. *)
Definition tier (is_local : bool) : nat := if is_local then 0 else 1.

Equations _fetch_asset (market_id : string) (is_local : bool)
  : option (gmap string value) * bool by wf (tier is_local) lt :=
_fetch_asset market_id is_local with _fetch_symbol_map is_local => {
  | Some symbol_map with assets_lower symbol_map !! Str.lower market_id => {
      | Some asset => (Some asset, is_local)
      | None with is_local => {
          | false => _fetch_asset market_id true
          | true => (None, true) } }
  | None with is_local => {
      | false => _fetch_asset market_id true
      | true => (None, true) } }.

(** [pd.to_datetime(asset[k], utc=True) if k in asset else None] *)
Definition date_param (asset : gmap string value) (k : string) : result value :=
  match asset !! k with
  | Some v => to_datetime v
  | None => Ok VNone
  end.

(** the same, with [and asset[k] != 'N/A'] *)
Definition date_param_na (asset : gmap string value) (k : string) : result value :=
  match asset !! k with
  | Some v => if ne_str v "N/A" then to_datetime v else Ok VNone
  | None => Ok VNone
  end.

(** The branch [if asset is not None] of [load_assets]. *)
Definition asset_params (asset : gmap string value) (params : gmap string value)
  : result (gmap string value) :=
  let* sym := dict_get asset "symbol" in
  let params := <["symbol" := sym]> params in
  let* sd := date_param asset "start_date" in
  let params := <["start_date" := sd]> params in
  let* ed := date_param asset "end_date" in
  let params := <["end_date" := ed]> params in
  let params := <["leverage" := default (VFloat float_one) (asset !! "leverage")]> params in
  let params := <["asset_name" := default VNone (asset !! "asset_name")]> params in
  let* edl := date_param_na asset "end_daily" in
  let params := <["end_daily" := edl]> params in
  let* edm := date_param_na asset "end_minute" in
  Ok (<["end_minute" := edm]> params).

(** The keyword arguments [load_assets] builds for one market. *)
Definition market_params (m : market) : result (gmap string value) :=
  let '(asset, is_local) := _fetch_asset (market_id m) false in
  let data_source := if is_local then "local" else "catalyst" in
  let params : gmap string value :=
    <["exchange_symbol" := VStr (market_id m)]>
      (<["data_source" := VStr data_source]>
         (<["exchange" := VStr name]> ∅)) in
  let* params := mixin_market_params name params m in
  match asset with
  | Some asset => asset_params asset params
  | None =>
      let* sym := get_catalyst_symbol m in
      Ok (<["symbol" := VStr sym]> params)
  end.

(** One turn of the loop of [load_assets] on [self.assets]. *)
Definition load_asset (assets : gmap string TradingPair) (m : market)
  : result (gmap string TradingPair) :=
  let* params := market_params m in
  Ok (<[market_id m := TradingPair_init params]> assets).

(** [load_assets], on the markets [self.api.fetch_markets()] returned. *)
Definition load_assets (assets : gmap string TradingPair) (markets : list market)
  : result (gmap string TradingPair) :=
  for_each load_asset markets assets.

(** [__init__]: [self.assets = dict()], then [self.load_assets()]. *)
Definition init_assets (markets : list market) : result (gmap string TradingPair) :=
  load_assets ∅ markets.

(** Modelled from the spec: [Exchange.get_symbols] (the base class is not
    among the sources); the public methods use the symbol codec to
    produce the exchange-native symbol of each asset. *)
Definition get_symbols (assets : list TradingPair) : result (list string) :=
  map_result get_symbol assets.

(** One candle of [get_candles]. *)
Definition candle (ohlcv : value) : result value :=
  let* t := getitem ohlcv 0 in
  let* last_traded := to_datetime_ms t in
  let* o := getitem ohlcv 1 in
  let* h := getitem ohlcv 2 in
  let* l := getitem ohlcv 3 in
  let* c := getitem ohlcv 4 in
  let* v := getitem ohlcv 5 in
  Ok (VDict [("last_traded", last_traded); ("open", o); ("high", h);
             ("low", l); ("close", c); ("volume", v)]).

(** What [get_candles] computes before it calls the exchange. *)
Definition candles_request (freq : string) (assets : list TradingPair)
  (start_dt : value) : result (string * string * Z) :=
  let* symbols := get_symbols assets in
  let* timeframe := get_timeframe freq in
  let* secs := seconds_since_epoch start_dt in
  let ms := (secs * 1000)%Z in
  let* symbol0 := index symbols 0 in
  Ok (symbol0, timeframe, ms).

(** [get_candles]: the requests sent to the exchange and the outcome. *)
Definition get_candles (freq : string) (assets : list TradingPair)
  (bar_count : value) (start_dt end_dt : value)
  : list api_call * result (list value) :=
  match candles_request freq assets start_dt with
  | Raise e => ([], Raise e)
  | Ok (symbol0, timeframe, ms) =>
      ([FetchOhlcv symbol0 timeframe ms bar_count],
       let* ohlcvs := fetch_ohlcv symbol0 timeframe ms bar_count in
       let* rows := iterate ohlcvs in
       map_result candle rows)
  end.

(** [float(x)] *)
Definition py_float (x : value) : result spec_float :=
  match x with
  | VInt n => float_of_int n
  | VFloat f => Ok f
  | VStr s => float_of_str s
  | _ => Raise TypeError
  end.

(** [dict(rate=float(entry[0]), quantity=float(entry[1]))] *)
Definition order_entry (entry : value) : result value :=
  let* p := getitem entry 0 in
  let* rate := py_float p in
  let* q := getitem entry 1 in
  let* quantity := py_float q in
  Ok (VDict [("rate", VFloat rate); ("quantity", VFloat quantity)]).

(** [index > limit - 1], when a limit is given *)
Definition past_limit (limit : option Z) (index : Z) : bool :=
  match limit with
  | Some n => (n - 1 <? index)%Z
  | None => false
  end.

(** The loop of [get_orderbook] over [enumerate(order_types)], from
    position [index] on. *)
Fixpoint orderbook_sides (order_book : gmap string value) (limit : option Z)
  (index : Z) (order_types : list string) (res : gmap string value)
  : result (gmap string value) :=
  match order_types with
  | [] => Ok res
  | order_type :: rest =>
      if past_limit limit index then Ok res
      else
        let* side := dict_get order_book order_type in
        let* entries := iterate side in
        let* rows := map_result order_entry entries in
        orderbook_sides order_book limit (index + 1) rest
          (<[order_type := VList rows]> res)
  end.

Definition get_orderbook (asset : TradingPair) (order_type : string)
  (limit : option Z) : result (gmap string value) :=
  let* ccxt_symbol := get_symbol asset in
  let params : gmap string value :=
    match limit with
    | Some n => <["depth" := VInt n]> ∅
    | None => ∅
    end in
  let* order_book := fetch_order_book ccxt_symbol params in
  let order_types :=
    if String.eqb order_type "all" then ["bids"; "asks"] else [order_type] in
  let* ts := dict_get order_book "timestamp" in
  let* last_traded := from_ms_timestamp ts in
  orderbook_sides order_book limit 0 order_types
    (<["last_traded" := last_traded]> ∅).

(** The two assignments [tickers] makes on a ticker of the exchange. *)
Definition ticker_entry (ticker : gmap string value) : result (gmap string value) :=
  let* ts := dict_get ticker "timestamp" in
  let* last_traded := from_ms_timestamp ts in
  let ticker := <["last_traded" := last_traded]> ticker in
  let volume := default (VInt 0) (ticker !! "baseVolume") in
  Ok (<["volume" := volume]> ticker).

(** [tickers].  The dictionary it returns is keyed by the assets
    themselves, with the hash and equality of [TradingPair]; it is given
    here by its assignments [tickers[asset] = ticker], in order. *)
Definition tickers (assets : list TradingPair)
  : result (list (TradingPair * gmap string value)) :=
  for_each
    (fun acc asset =>
       let* ccxt_symbol := get_symbol asset in
       let* ticker := fetch_ticker ccxt_symbol in
       let* ticker := ticker_entry ticker in
       Ok (acc ++ [(asset, ticker)])%list)
    assets [].

End CCXT.

(** * The vocabulary of the specification *)

(** A well-formed internal symbol: [base_quote] with one separator, in
    ASCII and in lower case, the native separator in neither part. *)
Definition well_formed_internal (s : string) : Prop :=
  Str.count "_" s = 1 /\
  Str.count "/" s = 0 /\
  Str.forallb (fun c => negb (Str.is_upper c)) s = true /\
  Str.forallb Str.is_ascii s = true.

(** The frequency grammar: an optional positive integer magnitude, then
    one unit letter in either case, [m] or [T] for minutes, [h] for
    hours, [d] for days. *)
Inductive unit_kind : Type := Minute | Hour | Day.

Definition unit_of_letter (c : ascii) : option unit_kind :=
  let l := Str.lower_char c in
  if Ascii.eqb l "m" || Ascii.eqb l "t" then Some Minute
  else if Ascii.eqb l "h" then Some Hour
  else if Ascii.eqb l "d" then Some Day
  else None.

Definition unit_letter (u : unit_kind) : ascii :=
  match u with
  | Minute => "m"
  | Hour => "h"
  | Day => "d"
  end.

(** the leading digits of a string and what follows them *)
Fixpoint span_digits (s : string) : string * string :=
  match s with
  | EmptyString => (EmptyString, EmptyString)
  | String c s' =>
      if Str.is_digit c then
        let '(ds, rest) := span_digits s' in (String c ds, rest)
      else (EmptyString, s)
  end.

(** a digit string read as a decimal numeral *)
Definition magnitude (ds : string) : option N :=
  N.of_uint <$> NilZero.uint_of_string ds.

(** The magnitude and unit of a frequency of the grammar, [None] for a
    string outside it. *)
Definition parse_frequency (f : string) : option (N * unit_kind) :=
  let '(ds, rest) := span_digits f in
  match rest with
  | String c EmptyString =>
      u ← unit_of_letter c;
      match ds with
      | EmptyString => Some (1%N, u)
      | _ => n ← magnitude ds; if (0 <? n)%N then Some (n, u) else None
      end
  | _ => None
  end.

(** the native form ["{magnitude}{unit}"] *)
Definition native (n : N) (u : unit_kind) : string :=
  str_of_N n ++ String (unit_letter u) EmptyString.

(** Where the frequency pattern matches a prefix: at a unit letter, or at
    a digit with a unit letter later on the same line. *)
Definition prefix_matches (f : string) : Prop :=
  (exists u rest, f = String u rest /\ Re.is_unit u = true) \/
  (exists d g u rest,
     f = String d (g ++ String u rest) /\
     Str.is_digit d = true /\ Re.is_unit u = true /\
     Str.count Re.newline g = 0).

(** The records a catalog holds for a market id, compared without
    regard to case, in the order of the catalog; none when the catalog
    is unavailable. *)
Definition catalog_entries (catalog : option (list (string * gmap string value)))
  (market_id : string) : list (gmap string value) :=
  match catalog with
  | Some items =>
      snd <$> filter (fun kv => Str.lower kv.1 = Str.lower market_id) items
  | None => []
  end.

(** A native symbol split on the slash, each part in lower case, the
    parts joined again with the underscore. *)
Definition rejoin_lower (s : string) : string :=
  String.concat "_" (Str.lower <$> Str.split "/" s).

(** The native symbol [BASE/QUOTE] turned into the internal notation. *)
Definition native_to_internal (base quote : string) : string :=
  Str.lower base ++ String "_" (Str.lower quote).

(** the float [n.0] *)
Definition flt (n : Z) : spec_float := binary_normalize 53 1024 n 0 false.

(** What the claims ask of [mixin_market_params]: it returns, and it
    leaves the three keys [load_assets] has set alone. *)
Definition mixin_returns
  (mixin : string -> gmap string value -> market -> result (gmap string value))
  : Prop :=
  forall nm p m, exists p', mixin nm p m = Ok p'.

Definition mixin_frame
  (mixin : string -> gmap string value -> market -> result (gmap string value))
  : Prop :=
  forall nm p m p', mixin nm p m = Ok p' ->
    p' !! "exchange" = p !! "exchange" /\
    p' !! "data_source" = p !! "data_source" /\
    p' !! "exchange_symbol" = p !! "exchange_symbol".

(** The keys the resolved branch of [load_assets] writes. *)
Definition resolved_keys : list string :=
  ["symbol"; "start_date"; "end_date"; "leverage"; "asset_name";
   "end_daily"; "end_minute"].

(** A catalog record whose start date and end of daily data both carry
    the sentinel. *)
Definition sentinel_record : gmap string value :=
  <["end_daily" := VStr "N/A"]>
    (<["start_date" := VStr "N/A"]>
       (<["symbol" := VStr "btc_usd"]> ∅)).

(** the last character of a string *)
Fixpoint last_char (s : string) : option ascii :=
  match s with
  | EmptyString => None
  | String c EmptyString => Some c
  | String _ s' => last_char s'
  end.

(** an entry of a returned side: a rate and a quantity, both floats *)
Definition is_rate_quantity (v : value) : Prop :=
  exists r q, v = VDict [("rate", VFloat r); ("quantity", VFloat q)].

(** ** Example data *)

(** an asset of the table, and two raw markets *)
Definition btc_usd : TradingPair :=
  TradingPair_init
    (<["exchange" := VStr "bitfinex"]> (<["symbol" := VStr "btc_usd"]> ∅)).

Definition btc_market : market := mkMarket "BTC/USD" "BTC/USD" ∅.
Definition eth_market : market :=
  mkMarket "ETH/USD" "ETH/USD" (<["lot" := VInt 1]> ∅).
Definition xbt_market : market := mkMarket "XBTUSD" "XBTUSD" ∅.
Definition abc_market : market := mkMarket "A/B/C" "A/B/C" ∅.

(** no catalog at all, and a remote catalog that knows one market *)
Definition no_catalogs (is_local : bool)
  : option (list (string * gmap string value)) := None.

Definition btc_record : gmap string value :=
  <["end_minute" := VStr "N/A"]>
    (<["start_date" := VStr "2015-01-01"]>
       (<["symbol" := VStr "btc_usd"]> ∅)).

Definition remote_catalog (is_local : bool)
  : option (list (string * gmap string value)) :=
  if is_local then None else Some [("btc/usd", btc_record)].

(** a [mixin_market_params] that copies the lot size of the market *)
Definition lot_mixin (nm : string) (params : gmap string value) (m : market)
  : result (gmap string value) :=
  match market_extra m !! "lot" with
  | Some lot => Ok (<["lot" := lot]> params)
  | None => Ok params
  end.

(** a [pd.to_datetime] that knows one date and rejects other text *)
Definition date_stub (v : value) : result value :=
  match v with
  | VStr s =>
      if String.eqb s "2015-01-01" then Ok (VTimestamp 1420070400000000000)
      else Raise ValueError
  | VTimestamp ns => Ok (VTimestamp ns)
  | VNaT | VNone => Ok VNaT
  | _ => Raise TypeError
  end.

(** milliseconds to a timestamp *)
Definition ms_stub (v : value) : result value :=
  match v with
  | VInt ms => Ok (VTimestamp (ms * 1000000))
  | _ => Raise TypeError
  end.

Definition no_text_floats (s : string) : result spec_float := Raise ValueError.

(** an order book with three bids and one ask, whatever is asked *)
Definition example_book : gmap string value :=
  <["asks" := VList [VList [VInt 101; VInt 4]]]>
    (<["bids" := VList [VList [VInt 100; VInt 1]; VList [VInt 99; VInt 2];
                        VList [VInt 98; VInt 3]]]>
       (<["timestamp" := VInt 1500000000000]> ∅)).

Definition book_stub (sym : string) (params : gmap string value)
  : result (gmap string value) := Ok example_book.

(** [{rate: r.0, quantity: q.0}] *)
Definition rate_quantity (r q : Z) : value :=
  VDict [("rate", VFloat (flt r)); ("quantity", VFloat (flt q))].

(** a remote catalog whose record has no symbol, and a second
    descriptor for the id of [btc_market] *)
Definition nameless_catalog (is_local : bool)
  : option (list (string * gmap string value)) :=
  if is_local then None
  else Some [("btc/usd", <["leverage" := VFloat float_one]> ∅)].

Definition btc_market_again : market := mkMarket "BTC/USD" "XBT/USD" ∅.

(** rows of candles, a ticker, and the exchange that returns them *)
Definition example_rows : value :=
  VList [VList [VInt 1500000000000; VInt 10; VInt 12; VInt 9; VInt 11; VInt 100];
         VList [VInt 1500000060000; VInt 11; VInt 13; VInt 10; VInt 12; VInt 80; VInt 7]].

Definition ohlcv_stub (sym tf : string) (since : Z) (limit : value)
  : result value := Ok example_rows.

Definition seconds_stub (v : value) : result Z :=
  match v with
  | VTimestamp ns => Ok (Z.quot ns 1000000000)
  | _ => Raise TypeError
  end.

Definition example_ticker : gmap string value :=
  <["volume" := VInt 5]>
    (<["last" := VInt 100]>
       (<["timestamp" := VInt 1500000000000]> ∅)).

Definition ticker_stub (sym : string) : result (gmap string value) :=
  Ok example_ticker.

(** the value of a computation that returned *)
Definition from_ok {A} (dflt : A) (r : result A) : A :=
  match r with
  | Ok a => a
  | Raise _ => dflt
  end.

(** what the adapter builds from the example data *)
Definition btc_params : gmap string value :=
  from_ok ∅ (market_params "bitfinex" remote_catalog lot_mixin date_stub btc_market).

Definition example_table : gmap string TradingPair :=
  from_ok ∅ (init_assets "bitfinex" remote_catalog lot_mixin date_stub
               [btc_market; eth_market]).

Definition eth_entry : TradingPair := default btc_usd (example_table !! "ETH/USD").

Definition again_params : gmap string value :=
  from_ok ∅ (market_params "bitfinex" no_catalogs lot_mixin date_stub btc_market_again).

Definition again_table : gmap string TradingPair :=
  from_ok ∅ (load_assets "bitfinex" no_catalogs lot_mixin date_stub ∅
               [btc_market; btc_market_again; eth_market]).

Definition example_candles : list value :=
  from_ok []
    (get_candles ms_stub seconds_stub ohlcv_stub "5T" [btc_usd] (VInt 2)
       (VTimestamp 1500000000999000000) VNone).2.

Definition example_tickers : list (TradingPair * gmap string value) :=
  from_ok [] (tickers ms_stub ticker_stub [btc_usd; btc_usd]).

Definition example_bids : gmap string value :=
  from_ok ∅ (get_orderbook ms_stub no_text_floats book_stub btc_usd "bids" None).

(** * Properties *)

(** ** Characters and strings *)

Ltac by_cases_on_ascii c :=
  destruct c as [[] [] [] [] [] [] [] []]; vm_compute; try reflexivity;
  try discriminate; try tauto.

Lemma lower_upper_char (c : ascii) :
  Str.is_upper c = false -> Str.lower_char (Str.upper_char c) = c.
Proof. by_cases_on_ascii c. Qed.

Lemma upper_char_slash (c : ascii) :
  Ascii.eqb (Str.upper_char c) "/" = Ascii.eqb c "/".
Proof. by_cases_on_ascii c. Qed.

Lemma lower_upper (s : string) :
  Str.forallb (fun c => negb (Str.is_upper c)) s = true ->
  Str.lower (Str.upper s) = s.
Proof.
  induction s as [|c s IH]; simpl; [reflexivity|].
  intros [Hc Hs]%andb_true_iff.
  unfold Str.lower, Str.upper in *. simpl.
  rewrite lower_upper_char by (now apply negb_true_iff).
  now rewrite IH.
Qed.

Lemma count_upper_slash (s : string) :
  Str.count "/" (Str.upper s) = Str.count "/" s.
Proof.
  induction s as [|c s IH]; simpl; [reflexivity|].
  unfold Str.upper in *. now rewrite upper_char_slash, IH.
Qed.

Lemma split_not_nil (sep : ascii) (s : string) : Str.split sep s <> [].
Proof.
  induction s as [|c s IH]; simpl; [discriminate|].
  destruct (Ascii.eqb c sep); [discriminate|].
  destruct (Str.split sep s); [contradiction|discriminate].
Qed.

Lemma split_no_sep (sep : ascii) (s : string) :
  Str.count sep s = 0 -> Str.split sep s = [s].
Proof.
  induction s as [|c s IH]; simpl; [reflexivity|].
  destruct (Ascii.eqb c sep); [discriminate|].
  intros H. now rewrite IH.
Qed.

Lemma split_app (sep : ascii) (a b : string) :
  Str.count sep a = 0 ->
  Str.split sep (a ++ String sep b) = a :: Str.split sep b.
Proof.
  induction a as [|c a IH]; simpl.
  - intros _. now rewrite Ascii.eqb_refl.
  - destruct (Ascii.eqb c sep); [discriminate|].
    intros H. now rewrite IH.
Qed.

Lemma count_app (c : ascii) (a b : string) :
  Str.count c (a ++ b) = Str.count c a + Str.count c b.
Proof. induction a as [|d a IH]; simpl; [reflexivity|]. rewrite IH. lia. Qed.

Lemma forallb_app (p : ascii -> bool) (a b : string) :
  Str.forallb p (a ++ b) = Str.forallb p a && Str.forallb p b.
Proof.
  induction a as [|d a IH]; simpl; [reflexivity|].
  now rewrite IH, andb_assoc.
Qed.

Lemma upper_app (a b : string) :
  Str.upper (a ++ b) = Str.upper a ++ Str.upper b.
Proof.
  unfold Str.upper. induction a as [|d a IH]; simpl; [reflexivity|].
  now rewrite IH.
Qed.

(** A string with exactly one separator is two separator-free parts. *)
Lemma count_one_parts (sep : ascii) (s : string) :
  Str.count sep s = 1 ->
  exists a b, s = a ++ String sep b /\
              Str.count sep a = 0 /\ Str.count sep b = 0.
Proof.
  induction s as [|c s IH]; simpl; [discriminate|].
  destruct (Ascii.eqb c sep) eqn:E.
  - apply Ascii.eqb_eq in E. subst c. intros H.
    exists EmptyString, s. repeat split. simpl in H. lia.
  - intros H. destruct (IH H) as (a & b & -> & Ha & Hb).
    exists (String c a), b. simpl. rewrite E. now repeat split.
Qed.

(** ** Symbol codec *)

Lemma get_symbol_parts (asset : TradingPair) (base quote : string) :
  symbol asset = VStr (base ++ String "_" quote) ->
  Str.count "_" base = 0 -> Str.count "_" quote = 0 ->
  get_symbol asset = Ok (Str.upper base ++ String "/" (Str.upper quote)).
Proof.
  intros Hs Hb Hq. unfold get_symbol, symbol_parts. rewrite Hs.
  rewrite split_app, split_no_sep by assumption. reflexivity.
Qed.

Lemma get_catalyst_symbol_parts (m : market) (base quote : string) :
  market_symbol m = base ++ String "/" quote ->
  Str.count "/" base = 0 -> Str.count "/" quote = 0 ->
  get_catalyst_symbol m = Ok (Str.lower base ++ String "_" (Str.lower quote)).
Proof.
  intros Hs Hb Hq. unfold get_catalyst_symbol. rewrite Hs.
  rewrite split_app, split_no_sep by assumption. reflexivity.
Qed.

(** C7: for a well-formed internal symbol [s] (one separator, ASCII, in
    lower case), the native symbol is the two parts in upper case
    joined by a slash, and translating it back to the internal notation
    gives [s] again. *)
Theorem symbol_round_trip (asset : TradingPair) (s : string) :
  symbol asset = VStr s ->
  well_formed_internal s ->
  exists base quote,
    s = base ++ String "_" quote /\
    get_symbol asset = Ok (Str.upper base ++ String "/" (Str.upper quote)) /\
    forall m : market,
      Ok (market_symbol m) = get_symbol asset ->
      get_catalyst_symbol m = Ok s.
Proof.
  intros Hsym (Hone & Hslash & Hlow & _).
  destruct (count_one_parts _ _ Hone) as (base & quote & -> & Hb & Hq).
  rewrite count_app in Hslash. simpl in Hslash.
  rewrite forallb_app in Hlow. simpl in Hlow.
  apply andb_true_iff in Hlow as [Hlb Hlq].
  exists base, quote. split; [reflexivity|].
  rewrite (get_symbol_parts asset base quote) by assumption.
  split; [reflexivity|].
  intros m [= Hm].
  rewrite (get_catalyst_symbol_parts m (Str.upper base) (Str.upper quote));
    [| assumption | rewrite count_upper_slash; lia
     | rewrite count_upper_slash; lia].
  now rewrite !lower_upper.
Qed.

(** What [lower] does to the characters the codec looks at. *)
Lemma lower_char_slash (c : ascii) :
  Ascii.eqb (Str.lower_char c) "/" = Ascii.eqb c "/".
Proof. by_cases_on_ascii c. Qed.

Lemma lower_char_not_upper (c : ascii) :
  Str.is_upper (Str.lower_char c) = false.
Proof. by_cases_on_ascii c. Qed.

Lemma lower_shape (s : string) :
  Str.count "/" (Str.lower s) = Str.count "/" s /\
  Str.forallb (fun c => negb (Str.is_upper c)) (Str.lower s) = true.
Proof.
  unfold Str.lower. induction s as [|c s [IHc IHf]]; simpl; [now split|].
  now rewrite lower_char_slash, lower_char_not_upper, IHc, IHf.
Qed.

Lemma split_parts_free (sep : ascii) (s p : string) :
  In p (Str.split sep s) -> Str.count sep p = 0.
Proof.
  revert p. induction s as [|c s IH]; simpl; intros p.
  - now intros [<- | []].
  - destruct (Ascii.eqb c sep) eqn:E.
    + intros [<- | Hp]; [reflexivity | now apply IH].
    + destruct (Str.split sep s) as [|q qs].
      * intros [<- | []]. simpl. now rewrite E.
      * intros [<- | Hp].
        -- simpl. rewrite E. apply IH. now left.
        -- apply IH. now right.
Qed.

Lemma index_In {A} (l : list A) (i : nat) (x : A) : index l i = Ok x -> In x l.
Proof.
  unfold index. destruct (nth_error l i) eqn:E; [|discriminate].
  intros [= <-]. now apply nth_error_In in E.
Qed.

(** ** Integers in decimal *)

Lemma digit_facts (c : ascii) :
  Str.is_digit c = true ->
  Str.is_space c = false /\ Re.is_unit c = false /\
  Ascii.eqb c Re.newline = false /\ Ascii.eqb c "_" = false /\
  Ascii.eqb c "-" = false /\ Ascii.eqb c "+" = false.
Proof.
  destruct c as [[] [] [] [] [] [] [] []]; vm_compute; intros H;
    try discriminate H; repeat split.
Qed.

Lemma unit_not_newline (c : ascii) :
  Re.is_unit c = true -> Ascii.eqb c Re.newline = false.
Proof.
  destruct c as [[] [] [] [] [] [] [] []]; vm_compute; intros H;
    try discriminate H; reflexivity.
Qed.

Lemma unit_not_digit (c : ascii) :
  Re.is_unit c = true -> Str.is_digit c = false.
Proof.
  destruct c as [[] [] [] [] [] [] [] []]; vm_compute; intros H;
    try discriminate H; reflexivity.
Qed.

Lemma rstrip_head (c : ascii) (s : string) :
  Str.is_space c = false -> exists t, Str.rstrip (String c s) = String c t.
Proof.
  intros Hc. simpl. destruct (Str.rstrip s) as [|d t].
  - rewrite Hc. now exists EmptyString.
  - now exists (String d t).
Qed.

Lemma strip_digits (ds : string) :
  Str.forallb Str.is_digit ds = true -> Str.strip ds = ds.
Proof.
  intros H. unfold Str.strip.
  assert (Hl : Str.lstrip ds = ds).
  { destruct ds as [|c s]; [reflexivity|]. simpl in *.
    apply andb_true_iff in H as [Hc _].
    now destruct (digit_facts c Hc) as (-> & _). }
  rewrite Hl. clear Hl. induction ds as [|c s IH]; [reflexivity|].
  simpl in *. apply andb_true_iff in H as [Hc Hs].
  rewrite (IH Hs). destruct s; [|reflexivity].
  now destruct (digit_facts c Hc) as (-> & _).
Qed.

Lemma drop_underscores_digits (ds : string) (b : bool) :
  Str.forallb Str.is_digit ds = true ->
  ds <> EmptyString \/ b = true ->
  drop_underscores b ds = Some ds.
Proof.
  revert b. induction ds as [|c s IH]; intros b H Hb; simpl in *.
  - destruct Hb as [Hb | ->]; [contradiction|reflexivity].
  - apply andb_true_iff in H as [Hc Hs].
    destruct (digit_facts c Hc) as (_ & _ & _ & -> & _).
    rewrite Hc, (IH true Hs) by now right. reflexivity.
Qed.

Lemma sign_free (c : ascii) (t : string) :
  Str.is_digit c = true ->
  match String c t with
  | String "-" body => let* n := py_int_digits body in Ok (- n)%Z
  | String "+" body => py_int_digits body
  | body => py_int_digits body
  end = py_int_digits (String c t).
Proof.
  destruct c as [[] [] [] [] [] [] [] []]; vm_compute Str.is_digit;
    intros H; try discriminate H; reflexivity.
Qed.

(** [int] on a string of digits reads it as a decimal numeral. *)
Lemma py_int_digit_string (ds : string) (n : N) :
  Str.forallb Str.is_digit ds = true ->
  magnitude ds = Some n ->
  py_int ds = Ok (Z.of_N n).
Proof.
  intros Hd Hn. unfold py_int. rewrite strip_digits by assumption.
  destruct ds as [|c s]; [discriminate Hn|].
  simpl in Hd. apply andb_true_iff in Hd as [Hc Hs].
  rewrite sign_free by assumption.
  unfold py_int_digits.
  rewrite drop_underscores_digits;
    [| simpl; now rewrite Hc, Hs | now left].
  unfold magnitude in Hn.
  destruct (NilZero.uint_of_string (String c s)); [|discriminate Hn].
  now injection Hn as <-.
Qed.

(** [int] on a string that starts with a digit is never negative. *)
Lemma py_int_nonneg (c : ascii) (s : string) (k : Z) :
  Str.is_digit c = true ->
  py_int (String c s) = Ok k ->
  exists n : N, k = Z.of_N n.
Proof.
  intros Hc. unfold py_int, Str.strip. simpl Str.lstrip.
  destruct (digit_facts c Hc) as (Hsp & _). rewrite Hsp.
  destruct (rstrip_head c s Hsp) as (t & ->).
  rewrite sign_free by assumption. unfold py_int_digits.
  destruct (drop_underscores false (String c t)) as [ds|]; [|discriminate].
  destruct (NilZero.uint_of_string ds); [|discriminate].
  intros [= <-]. eauto.
Qed.

Lemma string_of_uint_digits (d : Decimal.uint) :
  Str.forallb Str.is_digit (NilEmpty.string_of_uint d) = true.
Proof. induction d; simpl; auto. Qed.

Lemma str_of_N_digits (n : N) : Str.forallb Str.is_digit (str_of_N n) = true.
Proof. apply string_of_uint_digits. Qed.

Lemma str_of_N_not_empty (n : N) : str_of_N n <> EmptyString.
Proof.
  unfold str_of_N. destruct n as [|p]; [discriminate|].
  simpl. pose proof (DecimalPos.Unsigned.to_uint_nonnil p) as H.
  destruct (Pos.to_uint p); try discriminate. contradiction.
Qed.

Lemma magnitude_str_of_N (n : N) : magnitude (str_of_N n) = Some n.
Proof.
  unfold magnitude, NilZero.uint_of_string.
  pose proof (str_of_N_not_empty n) as Hne.
  destruct (str_of_N n) eqn:E; [contradiction|].
  rewrite <- E. unfold str_of_N. rewrite NilEmpty.usu. simpl.
  now rewrite DecimalN.Unsigned.of_to.
Qed.

Lemma format_int_of_N (n : N) : format_int (Z.of_N n) = str_of_N n.
Proof. destruct n; reflexivity. Qed.

(** ** Timeframe translation *)

Lemma dot_star_unit_digits (ds : string) (c : ascii) :
  Str.forallb Str.is_digit ds = true ->
  Re.is_unit c = true ->
  Re.dot_star_unit (ds ++ String c EmptyString) = Some (ds, c).
Proof.
  intros Hd Hc. induction ds as [|d s IH]; simpl in *.
  - now rewrite unit_not_newline, Hc.
  - apply andb_true_iff in Hd as [Hd Hs].
    destruct (digit_facts d Hd) as (_ & _ & -> & _).
    now rewrite (IH Hs).
Qed.

Lemma match_freq_digits (ds : string) (c : ascii) :
  Str.forallb Str.is_digit ds = true ->
  ds <> EmptyString ->
  Re.is_unit c = true ->
  Re.match_freq (ds ++ String c EmptyString) = Some (Some ds, c).
Proof.
  intros Hd Hne Hc. destruct ds as [|d s]; [contradiction|].
  simpl in *. apply andb_true_iff in Hd as [Hd Hs].
  now rewrite Hd, dot_star_unit_digits.
Qed.

Lemma match_freq_group1 (f g1 : string) (c : ascii) :
  Re.match_freq f = Some (Some g1, c) ->
  exists d g, g1 = String d g /\ Str.is_digit d = true.
Proof.
  destruct f as [|d s]; simpl; [discriminate|].
  destruct (Str.is_digit d) eqn:Hd.
  - destruct (Re.dot_star_unit s) as [[g u]|]; [|discriminate].
    intros [= <- <-]. eauto.
  - destruct (Re.is_unit d); discriminate.
Qed.

Lemma span_digits_spec (f ds rest : string) :
  span_digits f = (ds, rest) ->
  f = ds ++ rest /\ Str.forallb Str.is_digit ds = true.
Proof.
  revert ds rest. induction f as [|c s IH]; simpl; intros ds rest.
  - now intros [= <- <-].
  - destruct (Str.is_digit c) eqn:Hc.
    + destruct (span_digits s) as [ds' rest'].
      intros [= <- <-]. destruct (IH _ _ eq_refl) as [-> Hd].
      simpl. now rewrite Hc.
    + now intros [= <- <-].
Qed.

Lemma unit_of_letter_is_unit (c : ascii) (u : unit_kind) :
  unit_of_letter c = Some u -> Re.is_unit c = true /\ Str.is_digit c = false.
Proof.
  destruct c as [[] [] [] [] [] [] [] []]; vm_compute; intros H;
    try discriminate H; split; reflexivity.
Qed.

(** The unit letters the branches of [get_timeframe] recognise: all of
    the grammar but the lower-case [t]. *)
Lemma unit_branches (c : ascii) (u : unit_kind) (k : string) :
  unit_of_letter c = Some u ->
  (if Ascii.eqb (Str.lower_char c) "d" then Ok (k ++ "d")
   else if Ascii.eqb (Str.lower_char c) "m" || Ascii.eqb c "T" then Ok (k ++ "m")
   else if Ascii.eqb (Str.lower_char c) "h" || Ascii.eqb c "T" then Ok (k ++ "h")
   else Raise UnboundLocalError)
  = if Ascii.eqb c "t" then Raise UnboundLocalError
    else Ok (k ++ String (unit_letter u) EmptyString).
Proof.
  destruct c as [[] [] [] [] [] [] [] []]; vm_compute unit_of_letter;
    intros H; try discriminate H; injection H as <-; reflexivity.
Qed.

(** On a frequency of the grammar [get_timeframe] returns the native
    form, except that the lower-case [t] falls through every branch. *)
Lemma get_timeframe_grammar (f : string) (n : N) (u : unit_kind) :
  parse_frequency f = Some (n, u) ->
  exists ds c,
    f = ds ++ String c EmptyString /\
    get_timeframe f =
      if Ascii.eqb c "t" then Raise UnboundLocalError else Ok (native n u).
Proof.
  unfold parse_frequency. destruct (span_digits f) as [ds rest] eqn:Hspan.
  destruct (span_digits_spec _ _ _ Hspan) as [-> Hd].
  destruct rest as [|c [|]]; try discriminate.
  destruct (unit_of_letter c) as [u'|] eqn:Hu; [|discriminate]. simpl.
  destruct (unit_of_letter_is_unit _ _ Hu) as [Hunit Hnd].
  intros H. exists ds, c. split; [reflexivity|].
  unfold get_timeframe, native. destruct ds as [|d s].
  - injection H as <- <-. simpl. rewrite Hnd, Hunit. simpl.
    apply (unit_branches c u' "1" Hu).
  - destruct (magnitude (String d s)) as [m|] eqn:Hm; [|discriminate].
    simpl in H. destruct (0 <? m)%N; [|discriminate]. injection H as <- <-.
    rewrite match_freq_digits by (assumption || discriminate).
    rewrite (py_int_digit_string _ _ Hd Hm). simpl.
    rewrite format_int_of_N. apply (unit_branches c u' _ Hu).
Qed.

(** Whatever [get_timeframe] returns is in native form. *)
Lemma get_timeframe_native (f r : string) :
  get_timeframe f = Ok r -> exists n u, r = native n u.
Proof.
  unfold get_timeframe.
  destruct (Re.match_freq f) as [[g1 c]|] eqn:Hm; [|discriminate].
  assert (Hk : forall k, match g1 with Some g => py_int g | None => Ok 1%Z end = Ok k ->
                         exists n, k = Z.of_N n).
  { intros k. destruct g1 as [g|].
    - destruct (match_freq_group1 _ _ _ Hm) as (d & g' & -> & Hd).
      now apply py_int_nonneg.
    - intros [= <-]. now exists 1%N. }
  destruct (match g1 with Some g => py_int g | None => Ok 1%Z end) as [k|];
    [|discriminate].
  destruct (Hk k eq_refl) as [n ->]. simpl. rewrite format_int_of_N.
  destruct (Ascii.eqb (Str.lower_char c) "d").
  { intros [= <-]. now exists n, Day. }
  destruct (Ascii.eqb (Str.lower_char c) "m" || Ascii.eqb c "T").
  { intros [= <-]. now exists n, Minute. }
  destruct (Ascii.eqb (Str.lower_char c) "h" || Ascii.eqb c "T").
  { intros [= <-]. now exists n, Hour. }
  discriminate.
Qed.

(** A value in native form is translated to itself. *)
Lemma get_timeframe_of_native (n : N) (u : unit_kind) :
  get_timeframe (native n u) = Ok (native n u).
Proof.
  unfold get_timeframe, native.
  rewrite match_freq_digits;
    [| apply str_of_N_digits | apply str_of_N_not_empty | now destruct u].
  rewrite (py_int_digit_string _ n (str_of_N_digits n) (magnitude_str_of_N n)).
  simpl. rewrite format_int_of_N. now destruct u.
Qed.

(** C8: translating the outcome of a translation changes nothing, for
    every frequency string (an error of the first translation is the
    error of the whole); every value in native form is translated to
    itself, and every outcome of a translation is in native form. *)
Theorem get_timeframe_idempotent :
  (forall f : string,
     (let* r := get_timeframe f in get_timeframe r) = get_timeframe f) /\
  (forall (n : N) (u : unit_kind),
     get_timeframe (native n u) = Ok (native n u)) /\
  (forall f : string,
     match get_timeframe f with
     | Ok r => exists n u, r = native n u
     | Raise _ => True
     end).
Proof.
  split; [|split].
  - intros f. destruct (get_timeframe f) as [r|e] eqn:Hf; [|reflexivity].
    simpl. destruct (get_timeframe_native _ _ Hf) as (n & u & ->).
    apply get_timeframe_of_native.
  - apply get_timeframe_of_native.
  - intros f. destruct (get_timeframe f) as [r|e] eqn:Hf; [|exact I].
    exact (get_timeframe_native f r Hf).
Qed.

(** C2: the pattern lets the lower-case [t] through, in the grammar a
    minute, but no branch of [get_timeframe] takes it: the translation
    of ["t"] and of every ["{magnitude}t"] ends in [UnboundLocalError],
    where the claim has ["1m"] and ["{magnitude}m"]. *)
Theorem get_timeframe_lower_t :
  parse_frequency "t" = Some (1%N, Minute) /\
  get_timeframe "t" = Raise UnboundLocalError /\
  parse_frequency "5t" = Some (5%N, Minute) /\
  forall n : N,
    get_timeframe (str_of_N n ++ "t") = Raise UnboundLocalError.
Proof.
  repeat split; try reflexivity.
  intros n. unfold get_timeframe.
  rewrite match_freq_digits;
    [| apply str_of_N_digits | apply str_of_N_not_empty | reflexivity].
  now rewrite (py_int_digit_string _ n (str_of_N_digits n) (magnitude_str_of_N n)).
Qed.

(** ** Where the translation fails *)

Lemma dot_star_unit_some (s g : string) (u : ascii) :
  Re.dot_star_unit s = Some (g, u) ->
  exists rest, s = g ++ String u rest /\
               Re.is_unit u = true /\ Str.count Re.newline g = 0.
Proof.
  revert g u. induction s as [|c s IH]; simpl; intros g u; [discriminate|].
  destruct (Ascii.eqb c Re.newline) eqn:Hc; [discriminate|].
  destruct (Re.dot_star_unit s) as [[g' u']|].
  - intros [= <- <-]. destruct (IH _ _ eq_refl) as (rest & -> & Hu & Hg).
    exists rest. simpl. now rewrite Hc.
  - destruct (Re.is_unit c) eqn:Hu; [|discriminate].
    intros [= <- <-]. now exists s.
Qed.

Lemma dot_star_unit_finds (g rest : string) (u : ascii) :
  Re.is_unit u = true -> Str.count Re.newline g = 0 ->
  Re.dot_star_unit (g ++ String u rest) <> None.
Proof.
  intros Hu. induction g as [|c g IH]; simpl.
  - intros _. rewrite unit_not_newline, Hu by assumption.
    now destruct (Re.dot_star_unit rest) as [[? ?]|].
  - destruct (Ascii.eqb c Re.newline); [discriminate|]. intros Hg.
    specialize (IH Hg).
    now destruct (Re.dot_star_unit (g ++ String u rest)) as [[? ?]|].
Qed.

Lemma match_freq_none (f : string) :
  Re.match_freq f = None <-> ~ prefix_matches f.
Proof.
  unfold prefix_matches. split.
  - intros Hm [(u & rest & -> & Hu) | (d & g & u & rest & -> & Hd & Hu & Hg)];
      simpl in Hm.
    + now rewrite (unit_not_digit u Hu), Hu in Hm.
    + rewrite Hd in Hm. pose proof (dot_star_unit_finds g rest u Hu Hg) as Hne.
      now destruct (Re.dot_star_unit (g ++ String u rest)) as [[? ?]|].
  - intros Hno. destruct f as [|c s]; [reflexivity|]. simpl.
    destruct (Str.is_digit c) eqn:Hd.
    + destruct (Re.dot_star_unit s) as [[g u]|] eqn:Hs; [|reflexivity].
      destruct (dot_star_unit_some _ _ _ Hs) as (rest & -> & Hu & Hg).
      exfalso. apply Hno. right. now exists c, g, u, rest.
    + destruct (Re.is_unit c) eqn:Hu; [|reflexivity].
      exfalso. apply Hno. left. now exists c, s.
Qed.

Lemma py_int_raises (s : string) (e : exn) :
  py_int s = Raise e -> e = ValueError.
Proof.
  assert (Hd : forall t e', py_int_digits t = Raise e' -> e' = ValueError).
  { intros t e'. unfold py_int_digits.
    destruct (drop_underscores false t) as [ds|]; [|now intros [= <-]].
    destruct (NilZero.uint_of_string ds); [discriminate|now intros [= <-]]. }
  unfold py_int. destruct (Str.strip s) as [|c t]; [apply Hd|].
  destruct c as [[] [] [] [] [] [] [] []]; try apply Hd.
  destruct (py_int_digits t) eqn:E; [discriminate|].
  simpl. intros [= <-]. now apply (Hd t).
Qed.

(** C6, as amended: [get_timeframe] fails with the invalid-frequency
    error exactly on the strings where the pattern matches no prefix,
    those that start neither with a unit letter nor with a digit that a
    unit letter follows on the same line; ["xyz"] is one of them. *)
Theorem get_timeframe_invalid (f : string) :
  (get_timeframe f = Raise (InvalidHistoryFrequencyError f) <->
   ~ prefix_matches f) /\
  get_timeframe "xyz" = Raise (InvalidHistoryFrequencyError "xyz").
Proof.
  split; [|reflexivity].
  rewrite <- match_freq_none. unfold get_timeframe. split.
  - destruct (Re.match_freq f) as [[g1 c]|]; [|reflexivity].
    destruct (match g1 with Some g => py_int g | None => Ok 1%Z end) as [k|e] eqn:Hk.
    + simpl.
      destruct (Ascii.eqb (Str.lower_char c) "d"); [discriminate|].
      destruct (Ascii.eqb (Str.lower_char c) "m" || Ascii.eqb c "T"); [discriminate|].
      destruct (Ascii.eqb (Str.lower_char c) "h" || Ascii.eqb c "T"); discriminate.
    + simpl. destruct g1 as [g|]; [|discriminate Hk].
      apply py_int_raises in Hk. subst e. discriminate.
  - now intros ->.
Qed.

(** C6, as stated, fails: ["min"] is outside the grammar and is
    translated to ["1m"]. *)
Lemma get_timeframe_accepts_min :
  parse_frequency "min" = None /\ get_timeframe "min" = Ok "1m".
Proof. split; reflexivity. Qed.

(** ** Asset resolution *)

Section Resolution.

Context (fetch_symbol_map : bool -> option (list (string * gmap string value))).

Lemma foldl_lower_lookup (items : list (string * gmap string value))
    (acc : gmap string (gmap string value)) (key : string) :
  foldl (fun acc kv => <[Str.lower kv.1 := kv.2]> acc) acc items !! key =
  match last (filter (fun kv : string * gmap string value => Str.lower kv.1 = key) items) with
  | Some kv => Some kv.2
  | None => acc !! key
  end.
Proof.
  revert acc. induction items as [|[k v] items IH]; intros acc; [reflexivity|].
  simpl foldl. rewrite IH. rewrite filter_cons. simpl.
  destruct (decide (Str.lower k = key)) as [<-|Hne].
  - destruct (filter _ items) as [|kv l] eqn:E; simpl.
    + now rewrite lookup_insert_eq.
    + rewrite !last_cons. now destruct (last l).
  - destruct (last (filter _ items)); [reflexivity|].
    now rewrite lookup_insert_ne.
Qed.

Lemma assets_lower_lookup (items : list (string * gmap string value))
    (market_id : string) :
  assets_lower items !! Str.lower market_id =
  last (catalog_entries (Some items) market_id).
Proof.
  unfold assets_lower, catalog_entries. rewrite foldl_lower_lookup.
  rewrite fmap_last. rewrite lookup_empty.
  now destruct (last (filter _ items)).
Qed.

(** [_fetch_asset] consults the remote catalog, then the local one. *)
Lemma fetch_asset_local (market_id : string) :
  _fetch_asset fetch_symbol_map market_id true =
  (last (catalog_entries (fetch_symbol_map true) market_id), true).
Proof.
  simp _fetch_asset. unfold _fetch_symbol_map.
  destruct (fetch_symbol_map true) as [items|]; [|reflexivity].
  rewrite <- assets_lower_lookup. simpl.
  now destruct (assets_lower items !! Str.lower market_id).
Qed.

Lemma fetch_asset_remote (market_id : string) :
  _fetch_asset fetch_symbol_map market_id false =
  match last (catalog_entries (fetch_symbol_map false) market_id) with
  | Some asset => (Some asset, false)
  | None => (last (catalog_entries (fetch_symbol_map true) market_id), true)
  end.
Proof.
  simp _fetch_asset. unfold _fetch_symbol_map at 1.
  destruct (fetch_symbol_map false) as [items|].
  - rewrite <- assets_lower_lookup. simpl.
    destruct (assets_lower items !! Str.lower market_id); simpl; [reflexivity|].
    apply fetch_asset_local.
  - simpl. apply fetch_asset_local.
Qed.

End Resolution.

(** ** The asset table *)

(** Split an equation [let* x := r in k = Ok p] at its first step. *)
Ltac bind_ok H :=
  match type of H with
  | bind ?r _ = Ok _ =>
      let E := fresh "E" in
      destruct r eqn:E; simpl in H; [|discriminate H]
  end.

Ltac in_list :=
  repeat first [apply list_elem_of_here | apply list_elem_of_further].

Ltac not_in_list :=
  rewrite ?not_elem_of_cons; repeat split;
  first [discriminate | apply not_elem_of_nil].

Section Assets.

Context (name : string)
        (fetch_symbol_map : bool -> option (list (string * gmap string value)))
        (mixin_market_params :
           string -> gmap string value -> market -> result (gmap string value))
        (to_datetime : value -> result value).

Local Abbreviation market_params' :=
  (market_params name fetch_symbol_map mixin_market_params to_datetime).
Local Abbreviation load_asset' :=
  (load_asset name fetch_symbol_map mixin_market_params to_datetime).
Local Abbreviation load_assets' :=
  (load_assets name fetch_symbol_map mixin_market_params to_datetime).
Local Abbreviation init_assets' :=
  (init_assets name fetch_symbol_map mixin_market_params to_datetime).

Lemma asset_params_other (asset params p : gmap string value) (k : string) :
  asset_params to_datetime asset params = Ok p ->
  k ∉ resolved_keys ->
  p !! k = params !! k.
Proof.
  unfold asset_params, resolved_keys. intros H Hk.
  repeat bind_ok H. injection H as <-.
  rewrite !lookup_insert_ne; [reflexivity|..];
    intros <-; apply Hk; in_list.
Qed.

Lemma date_param_na_sentinel (asset : gmap string value) (k : string) :
  asset !! k = None \/ asset !! k = Some (VStr "N/A") ->
  date_param_na to_datetime asset k = Ok VNone.
Proof. unfold date_param_na. now intros [-> | ->]. Qed.

Lemma date_param_absent (asset : gmap string value) (k : string) :
  asset !! k = None -> date_param to_datetime asset k = Ok VNone.
Proof. unfold date_param. now intros ->. Qed.

(** What the resolved branch carries over from the catalog record. *)
Lemma asset_params_fields (asset params p : gmap string value) :
  asset_params to_datetime asset params = Ok p ->
  Ok (default VNone (p !! "symbol")) = dict_get asset "symbol" /\
  p !! "leverage" = Some (default (VFloat float_one) (asset !! "leverage")) /\
  p !! "asset_name" = Some (default VNone (asset !! "asset_name")) /\
  Ok (default VNone (p !! "start_date")) = date_param to_datetime asset "start_date" /\
  Ok (default VNone (p !! "end_date")) = date_param to_datetime asset "end_date" /\
  Ok (default VNone (p !! "end_daily")) = date_param_na to_datetime asset "end_daily" /\
  Ok (default VNone (p !! "end_minute")) = date_param_na to_datetime asset "end_minute".
Proof.
  unfold asset_params. intros H. repeat bind_ok H. injection H as <-.
  repeat split;
    repeat (first [ rewrite lookup_insert_eq
                  | rewrite lookup_insert_ne by discriminate ]);
    reflexivity.
Qed.

(** The three keys [load_assets] sets before anything else survive. *)
Lemma market_params_keys (m : market) (p : gmap string value) :
  mixin_frame mixin_market_params ->
  market_params' m = Ok p ->
  p !! "exchange" = Some (VStr name) /\
  p !! "exchange_symbol" = Some (VStr (market_id m)) /\
  p !! "data_source" =
    Some (VStr (if (_fetch_asset fetch_symbol_map (market_id m) false).2
                then "local" else "catalyst")).
Proof.
  intros Hframe. unfold market_params.
  destruct (_fetch_asset fetch_symbol_map (market_id m) false) as [asset is_local].
  intros H. bind_ok H.
  destruct (Hframe _ _ _ _ E) as (He & Hd & Hs).
  assert (Hp : p !! "exchange" = a !! "exchange" /\
               p !! "exchange_symbol" = a !! "exchange_symbol" /\
               p !! "data_source" = a !! "data_source").
  { destruct asset as [asset|].
    - repeat split; apply (asset_params_other _ _ _ _ H);
        unfold resolved_keys; not_in_list.
    - bind_ok H. injection H as <-.
      repeat split; now apply lookup_insert_ne. }
  destruct Hp as (-> & -> & ->). rewrite He, Hd, Hs. simpl.
  repeat split.
Qed.

(** A market found in neither catalog gets the symbol of the codec. *)
Lemma market_params_synthesized (m : market) :
  catalog_entries (fetch_symbol_map false) (market_id m) = [] ->
  catalog_entries (fetch_symbol_map true) (market_id m) = [] ->
  market_params' m =
    let* params :=
      mixin_market_params name
        (<["exchange_symbol" := VStr (market_id m)]>
           (<["data_source" := VStr "local"]>
              (<["exchange" := VStr name]> ∅))) m in
    let* sym := get_catalyst_symbol m in
    Ok (<["symbol" := VStr sym]> params).
Proof.
  intros Hr Hl. unfold market_params.
  now rewrite fetch_asset_remote, Hr, Hl.
Qed.

(** ** The loop of [load_assets] *)

Lemma load_assets_returns (markets : list market) (assets : gmap string TradingPair) :
  (forall m, m ∈ markets -> exists p, market_params' m = Ok p) ->
  exists table, load_assets' assets markets = Ok table.
Proof.
  revert assets. induction markets as [|m ms IH]; intros assets Hok; simpl.
  - now exists assets.
  - destruct (Hok m) as [p Hp]; [in_list|].
    unfold load_assets, load_asset at 1. simpl. rewrite Hp. simpl.
    apply IH. intros m' Hm'. apply Hok. now apply list_elem_of_further.
Qed.

Lemma load_assets_dom (markets : list market) (assets table : gmap string TradingPair) :
  load_assets' assets markets = Ok table ->
  dom table = dom assets ∪ list_to_set (market_id <$> markets).
Proof.
  revert assets. induction markets as [|m ms IH]; intros assets; simpl.
  - intros [= <-]. now rewrite union_empty_r_L.
  - unfold load_assets. simpl. intros H. bind_ok H.
    unfold load_asset in E. bind_ok E. injection E as <-.
    apply IH in H. rewrite H, dom_insert_L.
    now rewrite (comm_L _ {[market_id m]} (dom assets)), (assoc_L _).
Qed.

Lemma load_assets_other (markets : list market)
    (assets table : gmap string TradingPair) (k : string) :
  load_assets' assets markets = Ok table ->
  k ∉ market_id <$> markets ->
  table !! k = assets !! k.
Proof.
  revert assets. induction markets as [|m ms IH]; intros assets; simpl.
  - now intros [= <-].
  - unfold load_assets. simpl. intros H Hk. bind_ok H.
    unfold load_asset in E. bind_ok E. injection E as <-.
    apply not_elem_of_cons in Hk as [Hne Hk].
    rewrite (IH _ H Hk). now apply lookup_insert_ne.
Qed.

(** Every entry of the table was built from one of the markets. *)
Lemma load_assets_entry (markets : list market)
    (assets table : gmap string TradingPair) (k : string) (tp : TradingPair) :
  load_assets' assets markets = Ok table ->
  table !! k = Some tp ->
  assets !! k = Some tp \/
  exists m p, m ∈ markets /\ market_id m = k /\
              market_params' m = Ok p /\ tp = TradingPair_init p.
Proof.
  revert assets. induction markets as [|m ms IH]; intros assets; simpl.
  - intros [= <-]. now left.
  - unfold load_assets. simpl. intros H Hk. bind_ok H.
    unfold load_asset in E. bind_ok E. injection E as <-.
    destruct (IH _ H Hk) as [Ha | (m' & p & Hm' & Hid & Hp & ->)].
    + destruct (decide (market_id m = k)) as [<-|Hne].
      * rewrite lookup_insert_eq in Ha. injection Ha as <-.
        right. exists m, a0. repeat split; [in_list|assumption].
      * rewrite lookup_insert_ne in Ha by assumption. now left.
    + right. exists m', p. repeat split; try assumption.
      now apply list_elem_of_further.
Qed.

(** A market that shares its id with no other has its own entry. *)
Lemma load_assets_own_entry (markets : list market)
    (assets table : gmap string TradingPair) (m : market) :
  load_assets' assets markets = Ok table ->
  m ∈ markets ->
  (forall m', m' ∈ markets -> market_id m' = market_id m -> m' = m) ->
  exists p, market_params' m = Ok p /\
            table !! market_id m = Some (TradingPair_init p).
Proof.
  revert assets. induction markets as [|m0 ms IH]; intros assets H Hin Huniq.
  - now apply elem_of_nil in Hin.
  - unfold load_assets in H. simpl in H. bind_ok H.
    unfold load_asset in E. bind_ok E. injection E as <-.
    destruct (decide (market_id m ∈ market_id <$> ms)) as [Hms|Hms].
    + apply list_elem_of_fmap in Hms as (m' & Hid & Hm').
      assert (m' = m) as ->
        by (apply Huniq; [now apply list_elem_of_further | congruence]).
      apply (IH _ H Hm'). intros m'' Hm''. apply Huniq.
      now apply list_elem_of_further.
    + apply elem_of_cons in Hin as [->|Hin].
      * exists a0. split; [assumption|].
        rewrite (load_assets_other _ _ _ _ H Hms). apply lookup_insert_eq.
      * exfalso. apply Hms. now apply list_elem_of_fmap_2.
Qed.

(** C3, as amended: resolution returns the remote catalog's record for
    the market id (compared without regard to case) with source remote;
    failing that, absent or unavailable, the local catalog's record
    with source local; failing both, no record and source local.  In
    the last case the construction turn of a market whose native symbol
    is [BASE/QUOTE], with one slash, returns and puts under the market
    id an entry whose symbol is the native symbol split on the slash,
    in lower case, joined again with the underscore, and whose data
    source is ["local"]; it is the entry of the table when the
    construction returns and no other descriptor has that id. *)
Theorem resolve_market (m : market) :
  _fetch_asset fetch_symbol_map (market_id m) false =
    match last (catalog_entries (fetch_symbol_map false) (market_id m)) with
    | Some asset => (Some asset, false)
    | None =>
        match last (catalog_entries (fetch_symbol_map true) (market_id m)) with
        | Some asset => (Some asset, true)
        | None => (None, true)
        end
    end /\
  forall base quote : string,
    mixin_returns mixin_market_params ->
    mixin_frame mixin_market_params ->
    catalog_entries (fetch_symbol_map false) (market_id m) = [] ->
    catalog_entries (fetch_symbol_map true) (market_id m) = [] ->
    market_symbol m = base ++ String "/" quote ->
    Str.count "/" base = 0 -> Str.count "/" quote = 0 ->
    exists tp,
      symbol tp = VStr (rejoin_lower (market_symbol m)) /\
      rejoin_lower (market_symbol m) = native_to_internal base quote /\
      data_source tp = VStr "local" /\
      (forall assets : gmap string TradingPair,
         load_asset' assets m = Ok (<[market_id m := tp]> assets)) /\
      (forall (markets : list market) (table : gmap string TradingPair),
         init_assets' markets = Ok table ->
         m ∈ markets ->
         (forall m', m' ∈ markets -> market_id m' = market_id m -> m' = m) ->
         table !! market_id m = Some tp).
Proof.
  split.
  - rewrite fetch_asset_remote.
    destruct (last (catalog_entries (fetch_symbol_map false) (market_id m)));
      [reflexivity|].
    now destruct (last (catalog_entries (fetch_symbol_map true) (market_id m))).
  - intros base quote Hret Hframe Hr Hl Hsym Hb Hq.
    pose proof (market_params_synthesized m Hr Hl) as Hmp.
    destruct (Hret name
                (<["exchange_symbol" := VStr (market_id m)]>
                   (<["data_source" := VStr "local"]>
                      (<["exchange" := VStr name]> ∅))) m) as [p' Hp'].
    rewrite Hp' in Hmp. simpl in Hmp.
    rewrite (get_catalyst_symbol_parts m base quote Hsym Hb Hq) in Hmp.
    simpl in Hmp.
    assert (Hrj : rejoin_lower (market_symbol m) = native_to_internal base quote).
    { unfold rejoin_lower.
      rewrite Hsym, split_app, split_no_sep by assumption. reflexivity. }
    destruct (Hframe _ _ _ _ Hp') as (_ & Hds & _).
    rewrite lookup_insert_ne, lookup_insert_eq in Hds by discriminate.
    eexists (TradingPair_init _). repeat split.
    + unfold TradingPair_init, kwarg. simpl.
      rewrite lookup_insert_eq, Hrj. reflexivity.
    + exact Hrj.
    + unfold TradingPair_init, kwarg. simpl.
      rewrite lookup_insert_ne by discriminate. now rewrite Hds.
    + intros assets. unfold load_asset. now rewrite Hmp.
    + intros markets table Hinit Hin Huniq.
      destruct (load_assets_own_entry _ _ _ _ Hinit Hin Huniq) as (p & Hp & Ht).
      rewrite Hmp in Hp. injection Hp as <-. exact Ht.
Qed.

(** C4, as amended: when the keyword arguments of every market of the
    list can be built, [load_assets] returns a table whose keys are the
    market ids of the list, one entry for each distinct id; its length
    is that of the list when the ids are pairwise distinct. *)
Theorem load_assets_one_entry_per_id (markets : list market) :
  (forall m, m ∈ markets -> exists p, market_params' m = Ok p) ->
  exists table,
    init_assets' markets = Ok table /\
    (forall k, is_Some (table !! k) <-> k ∈ market_id <$> markets) /\
    size table = length (remove_dups (market_id <$> markets)) /\
    (NoDup (market_id <$> markets) -> size table = length markets).
Proof.
  intros Hok. destruct (load_assets_returns markets ∅ Hok) as [table Ht].
  exists table. split; [assumption|].
  pose proof (load_assets_dom _ _ _ Ht) as Hdom.
  rewrite dom_empty_L, union_empty_l_L in Hdom.
  assert (Hsize : size table = length (remove_dups (market_id <$> markets))).
  { rewrite <- size_dom, Hdom.
    rewrite <- (size_list_to_set (C:=gset string) (remove_dups (market_id <$> markets)))
      by apply NoDup_remove_dups.
    f_equal. apply set_eq. intros k.
    now rewrite !elem_of_list_to_set, elem_of_remove_dups. }
  repeat split.
  - intros Hk. apply elem_of_dom in Hk. rewrite Hdom in Hk.
    now apply elem_of_list_to_set in Hk.
  - intros Hk. apply elem_of_dom. rewrite Hdom.
    now apply elem_of_list_to_set.
  - assumption.
  - intros Hnd. rewrite <- size_dom, Hdom, size_list_to_set by assumption.
    apply length_fmap.
Qed.

(** A market found in neither catalog can be built as soon as
    [mixin_market_params] returns and its native symbol has a slash. *)
Lemma market_params_unresolved (m : market) :
  mixin_returns mixin_market_params ->
  catalog_entries (fetch_symbol_map false) (market_id m) = [] ->
  catalog_entries (fetch_symbol_map true) (market_id m) = [] ->
  1 <= Str.count "/" (market_symbol m) ->
  exists p, market_params' m = Ok p.
Proof.
  intros Hret Hr Hl Hslash.
  rewrite market_params_synthesized by assumption.
  destruct (Hret name
              (<["exchange_symbol" := VStr (market_id m)]>
                 (<["data_source" := VStr "local"]>
                    (<["exchange" := VStr name]> ∅))) m) as [p' ->].
  simpl. unfold get_catalyst_symbol.
  assert (Hparts : exists a b rest,
             Str.split "/" (market_symbol m) = a :: b :: rest).
  { generalize dependent (market_symbol m). intros s.
    induction s as [|c s IH]; simpl; [lia|].
    destruct (Ascii.eqb c "/").
    - intros _. pose proof (split_not_nil "/" s) as Hne.
      destruct (Str.split "/" s) as [|b rest]; [contradiction|].
      now exists EmptyString, b, rest.
    - intros Hs. destruct (IH Hs) as (a & b & rest & ->).
      now exists (String c a), b, rest. }
  destruct Hparts as (a & b & rest & ->). simpl. eauto.
Qed.

(** C5: on a catalog record whose start date carries the sentinel
    ["N/A"], the resolved branch hands the sentinel to
    [pd.to_datetime] and keeps what comes back, or fails with its
    exception, where the claim has null; the end of daily data, with
    the same sentinel, is null. *)
Theorem start_date_sentinel_kept (params : gmap string value) :
  match to_datetime (VStr "N/A") with
  | Ok t =>
      exists p, asset_params to_datetime sentinel_record params = Ok p /\
                p !! "start_date" = Some t /\
                p !! "end_daily" = Some VNone
  | Raise e => asset_params to_datetime sentinel_record params = Raise e
  end.
Proof.
  unfold asset_params, date_param, date_param_na, dict_get.
  assert (sentinel_record !! "symbol" = Some (VStr "btc_usd")) as -> by reflexivity.
  assert (sentinel_record !! "start_date" = Some (VStr "N/A")) as -> by reflexivity.
  assert (sentinel_record !! "end_date" = None) as -> by reflexivity.
  assert (sentinel_record !! "end_daily" = Some (VStr "N/A")) as -> by reflexivity.
  assert (sentinel_record !! "end_minute" = None) as -> by reflexivity.
  simpl. destruct (to_datetime (VStr "N/A")) as [t|e]; simpl; [|reflexivity].
  eexists. split; [reflexivity|].
  split;
    repeat (first [ rewrite lookup_insert_eq
                  | rewrite lookup_insert_ne by discriminate ]);
    reflexivity.
Qed.

(** C10: every entry of the table built by [load_assets] records its
    own key as the exchange symbol and the adapter's name as the
    exchange, whichever branch built it. *)
Theorem table_entries_keyed (markets : list market)
    (table : gmap string TradingPair) (k : string) (tp : TradingPair) :
  mixin_frame mixin_market_params ->
  init_assets' markets = Ok table ->
  table !! k = Some tp ->
  exchange_symbol tp = VStr k /\ exchange tp = VStr name.
Proof.
  intros Hframe Hinit Hk.
  destruct (load_assets_entry _ _ _ _ _ Hinit Hk)
    as [Hempty | (m & p & _ & <- & Hp & ->)].
  - now rewrite lookup_empty in Hempty.
  - destruct (market_params_keys _ _ Hframe Hp) as (He & Hs & _).
    unfold TradingPair_init, kwarg. simpl. now rewrite He, Hs.
Qed.

End Assets.

(** ** Candles *)

Section Candles.

Context (to_datetime_ms : value -> result value)
        (seconds_since_epoch : value -> result Z)
        (fetch_ohlcv : string -> string -> Z -> value -> result value).

Local Abbreviation get_candles' :=
  (get_candles to_datetime_ms seconds_since_epoch fetch_ohlcv).

(** C9: with a non-empty list of assets, [get_candles] sends the exchange
    at most one request, for the symbol of the first asset; the candles
    it returns are the rows of that request, one candle each; and the
    assets after the first change nothing, unless the symbol of one of
    them is malformed, in which case nothing is requested at all. *)
Theorem get_candles_first_asset (freq : string) (a : TradingPair)
    (rest : list TradingPair) (bar_count start_dt end_dt : value) :
  let all := get_candles' freq (a :: rest) bar_count start_dt end_dt in
  let alone := get_candles' freq [a] bar_count start_dt end_dt in
  match get_symbols rest with
  | Ok _ => all = alone
  | Raise _ => all.1 = [] /\ exists e, all.2 = Raise e
  end /\
  (all.1 = [] \/
   exists sym tf ms, get_symbol a = Ok sym /\
                     all.1 = [FetchOhlcv sym tf ms bar_count]) /\
  match all.2 with
  | Ok candles =>
      exists sym tf ms ohlcvs rows,
        get_symbol a = Ok sym /\
        all.1 = [FetchOhlcv sym tf ms bar_count] /\
        fetch_ohlcv sym tf ms bar_count = Ok ohlcvs /\
        iterate ohlcvs = Ok rows /\
        map_result (candle to_datetime_ms) rows = Ok candles
  | Raise _ => True
  end.
Proof.
  unfold get_candles, candles_request, get_symbols. simpl map_result.
  destruct (get_symbol a) as [sym|e]; simpl.
  2: { destruct (map_result get_symbol rest); simpl; eauto 6. }
  destruct (map_result get_symbol rest) as [syms|e]; simpl.
  2: { eauto 6. }
  destruct (get_timeframe freq) as [tf|e]; simpl; [|eauto 6].
  destruct (seconds_since_epoch start_dt) as [secs|e]; simpl; [|eauto 6].
  split; [reflexivity|]. split; [right; eauto 6|].
  destruct (fetch_ohlcv sym tf (secs * 1000)%Z bar_count) as [ohlcvs|e] eqn:Hf;
    simpl; [|exact I].
  destruct (iterate ohlcvs) as [rows|e] eqn:Hi; simpl; [|exact I].
  destruct (map_result (candle to_datetime_ms) rows) as [candles|e] eqn:Hc;
    [|exact I].
  exists sym, tf, (secs * 1000)%Z, ohlcvs, rows. now repeat split.
Qed.

End Candles.

(** ** The order book *)

Lemma map_result_length {A B} (f : A -> result B) (xs : list A) (ys : list B) :
  map_result f xs = Ok ys -> length ys = length xs.
Proof.
  revert ys. induction xs as [|x xs IH]; simpl; intros ys.
  - now intros [= <-].
  - intros H. bind_ok H. bind_ok H. injection H as <-.
    simpl. now rewrite (IH _ eq_refl).
Qed.

Section OrderBook.

Context (from_ms_timestamp : value -> result value)
        (float_of_str : string -> result spec_float)
        (fetch_order_book : string -> gmap string value -> result (gmap string value)).

(** With one side asked for and a depth of at least one, the side is
    copied whole: the depth only travels to the exchange. *)
Lemma get_orderbook_one_side (asset : TradingPair) (order_type : string) (n : Z) :
  order_type <> "all" -> (1 <= n)%Z ->
  get_orderbook from_ms_timestamp float_of_str fetch_order_book
    asset order_type (Some n) =
  let* ccxt_symbol := get_symbol asset in
  let* order_book := fetch_order_book ccxt_symbol (<["depth" := VInt n]> ∅) in
  let* ts := dict_get order_book "timestamp" in
  let* last_traded := from_ms_timestamp ts in
  let* side := dict_get order_book order_type in
  let* entries := iterate side in
  let* rows := map_result (order_entry float_of_str) entries in
  Ok (<[order_type := VList rows]> (<["last_traded" := last_traded]> ∅)).
Proof.
  intros Hne Hn. unfold get_orderbook.
  apply String.eqb_neq in Hne. rewrite Hne.
  destruct (get_symbol asset) as [sym|]; simpl; [|reflexivity].
  destruct (fetch_order_book sym _) as [ob|]; simpl; [|reflexivity].
  destruct (dict_get ob "timestamp") as [ts|]; simpl; [|reflexivity].
  destruct (from_ms_timestamp ts) as [lt|]; simpl; [|reflexivity].
  assert ((n - 1 <? 0)%Z = false) as -> by lia.
  destruct (dict_get ob order_type) as [side|]; simpl; [|reflexivity].
  destruct (iterate side) as [entries|]; simpl; [|reflexivity].
  now destruct (map_result (order_entry float_of_str) entries).
Qed.

End OrderBook.

(** C1: the depth limit is compared with the position of the side among
    the requested sides, not with the entries.  The bids filter with
    depth 2 keeps all three bids of the book, where the claim has two;
    both sides with depth 1 loses the asks. *)
Theorem get_orderbook_depth_limit :
  match get_orderbook ms_stub no_text_floats book_stub btc_usd "bids" (Some 2%Z) with
  | Ok res =>
      res !! "bids" =
        Some (VList [rate_quantity 100 1; rate_quantity 99 2; rate_quantity 98 3]) /\
      res !! "asks" = None
  | Raise _ => False
  end /\
  match get_orderbook ms_stub no_text_floats book_stub btc_usd "all" (Some 1%Z) with
  | Ok res =>
      res !! "bids" =
        Some (VList [rate_quantity 100 1; rate_quantity 99 2; rate_quantity 98 3]) /\
      res !! "asks" = None
  | Raise _ => False
  end.
Proof. vm_compute. repeat split. Qed.

(** ** The claims at concrete inputs *)

Lemma lot_mixin_frame : mixin_frame lot_mixin.
Proof.
  intros nm p m p'. unfold lot_mixin.
  destruct (market_extra m !! "lot"); intros [= <-];
    rewrite ?lookup_insert_ne by discriminate; repeat split.
Qed.

Lemma symbol_round_trip_witness :
  exists base quote,
    "btc_usd" = base ++ String "_" quote /\
    get_symbol btc_usd = Ok (Str.upper base ++ String "/" (Str.upper quote)) /\
    forall m : market,
      Ok (market_symbol m) = get_symbol btc_usd ->
      get_catalyst_symbol m = Ok "btc_usd".
Proof.
  apply (symbol_round_trip btc_usd "btc_usd").
  - vm_compute. reflexivity.
  - vm_compute. repeat split.
Defined.

Lemma lot_mixin_returns : mixin_returns lot_mixin.
Proof.
  intros nm p m. unfold lot_mixin. destruct (market_extra m !! "lot"); eauto.
Qed.

Lemma resolve_market_witness :
  exists tp,
    symbol tp = VStr (rejoin_lower (market_symbol eth_market)) /\
    rejoin_lower (market_symbol eth_market) = native_to_internal "ETH" "USD" /\
    data_source tp = VStr "local" /\
    (forall assets : gmap string TradingPair,
       load_asset "bitfinex" no_catalogs lot_mixin date_stub assets eth_market
       = Ok (<[market_id eth_market := tp]> assets)) /\
    (forall (markets : list market) (table : gmap string TradingPair),
       init_assets "bitfinex" no_catalogs lot_mixin date_stub markets = Ok table ->
       eth_market ∈ markets ->
       (forall m', m' ∈ markets -> market_id m' = market_id eth_market ->
                   m' = eth_market) ->
       table !! market_id eth_market = Some tp).
Proof.
  apply (proj2 (resolve_market "bitfinex" no_catalogs lot_mixin date_stub eth_market)
           "ETH" "USD");
    [apply lot_mixin_returns | apply lot_mixin_frame | reflexivity..].
Defined.

(** C3, as stated, fails: a market found in no catalog whose native
    symbol has no slash gets no entry, the construction ends with
    [IndexError]; and of a native symbol with two slashes the entry
    keeps the first two parts only. *)
Lemma resolve_market_no_entry :
  (_fetch_asset no_catalogs (market_id xbt_market) false = (None, true) /\
   init_assets "bitfinex" no_catalogs lot_mixin date_stub [xbt_market]
     = Raise IndexError) /\
  (_fetch_asset no_catalogs (market_id abc_market) false = (None, true) /\
   rejoin_lower (market_symbol abc_market) = "a_b_c" /\
   match init_assets "bitfinex" no_catalogs lot_mixin date_stub [abc_market] with
   | Ok table => symbol <$> table !! market_id abc_market = Some (VStr "a_b")
   | Raise _ => False
   end).
Proof. vm_compute. repeat split. Qed.

Lemma load_assets_one_entry_per_id_witness :
  exists table,
    init_assets "bitfinex" remote_catalog lot_mixin date_stub
      [btc_market; eth_market] = Ok table /\
    (forall k, is_Some (table !! k) <->
               k ∈ market_id <$> [btc_market; eth_market]) /\
    size table = length (remove_dups (market_id <$> [btc_market; eth_market])) /\
    (NoDup (market_id <$> [btc_market; eth_market]) ->
     size table = length [btc_market; eth_market]).
Proof.
  apply (load_assets_one_entry_per_id "bitfinex" remote_catalog lot_mixin
           date_stub [btc_market; eth_market]).
  intros m Hm.
  apply elem_of_cons in Hm as [-> | Hm]; [eexists; vm_compute; reflexivity|].
  apply elem_of_cons in Hm as [-> | Hm]; [eexists; vm_compute; reflexivity|].
  now apply elem_of_nil in Hm.
Defined.

Lemma table_entries_keyed_witness :
  exists table tp,
    init_assets "bitfinex" remote_catalog lot_mixin date_stub
      [btc_market; eth_market] = Ok table /\
    table !! "BTC/USD" = Some tp /\
    data_source tp = VStr "catalyst" /\
    exchange_symbol tp = VStr "BTC/USD" /\ exchange tp = VStr "bitfinex".
Proof.
  eexists _, _.
  split; [vm_compute; reflexivity|].
  split; [vm_compute; reflexivity|].
  split; [vm_compute; reflexivity|].
  eapply (table_entries_keyed "bitfinex" remote_catalog lot_mixin date_stub
            [btc_market; eth_market]);
    [apply lot_mixin_frame | vm_compute; reflexivity | vm_compute; reflexivity].
Defined.

(** With a pandas that rejects the sentinel, the market resolved to the
    record of C5 ends the construction. *)
Lemma start_date_sentinel_aborts :
  init_assets "bitfinex"
    (fun is_local => if is_local then None else Some [("btc/usd", sentinel_record)])
    lot_mixin date_stub [btc_market]
  = Raise ValueError.
Proof. vm_compute. reflexivity. Qed.

(** C4, as stated, fails: two descriptors with one id leave a table of
    length one, and a market found in no catalog whose native symbol
    has no slash ends the construction with [IndexError]. *)
Lemma load_assets_length_differs :
  (exists table,
     init_assets "bitfinex" no_catalogs lot_mixin date_stub
       [btc_market; btc_market] = Ok table /\
     size table = 1 /\ length [btc_market; btc_market] = 2) /\
  init_assets "bitfinex" no_catalogs lot_mixin date_stub [xbt_market]
    = Raise IndexError.
Proof.
  split; [|vm_compute; reflexivity].
  eexists. split; [vm_compute; reflexivity|].
  split; vm_compute; reflexivity.
Qed.

(** * Further properties of the code *)

(** ** Timeframes *)

Lemma last_char_app (s : string) (c : ascii) :
  last_char (s ++ String c EmptyString) = Some c.
Proof.
  induction s as [|d s IH]; [reflexivity|].
  simpl. rewrite IH. now destruct s.
Qed.

(** X1: on a frequency of the grammar that does not end with the
    lower-case [t], [get_timeframe] returns the magnitude in decimal,
    without leading zeros and 1 when absent, followed by [m], [h] or
    [d]; the upper-case [T] is a minute. *)
Theorem get_timeframe_on_grammar (f : string) (n : N) (u : unit_kind) :
  parse_frequency f = Some (n, u) ->
  last_char f <> Some "t"%char ->
  get_timeframe f = Ok (native n u).
Proof.
  intros Hp Hl. destruct (get_timeframe_grammar f n u Hp) as (ds & c & -> & ->).
  rewrite last_char_app in Hl.
  destruct (Ascii.eqb c "t") eqn:E; [|reflexivity].
  apply Ascii.eqb_eq in E. now subst c.
Qed.

Lemma get_timeframe_on_grammar_witness :
  get_timeframe "015T" = Ok (native 15 Minute).
Proof.
  apply (get_timeframe_on_grammar "015T" 15 Minute).
  - reflexivity.
  - vm_compute. discriminate.
Defined.

Lemma match_freq_unit (f : string) (g : option string) (c : ascii) :
  Re.match_freq f = Some (g, c) -> Re.is_unit c = true.
Proof.
  destruct f as [|d s]; simpl; [discriminate|].
  destruct (Str.is_digit d).
  - destruct (Re.dot_star_unit s) as [[g' u]|] eqn:E; [|discriminate].
    intros [= <- <-]. now destruct (dot_star_unit_some _ _ _ E) as (_ & _ & Hu & _).
  - destruct (Re.is_unit d) eqn:Hu; [|discriminate]. now intros [= <- <-].
Qed.

Lemma unit_has_kind (c : ascii) :
  Re.is_unit c = true -> exists u, unit_of_letter c = Some u.
Proof.
  destruct c as [[] [] [] [] [] [] [] []]; vm_compute; intros H;
    try discriminate H; eauto.
Qed.

(** X2: [get_timeframe] fails in three ways only: with the
    invalid-frequency error of its argument; with the [ValueError] of
    [int], when the pattern matched and the text in front of the unit
    is no integer; with [UnboundLocalError], when the unit the pattern
    matched is the lower-case [t]. *)
Theorem get_timeframe_errors (f : string) :
  match get_timeframe f with
  | Ok _ => True
  | Raise e =>
      (e = InvalidHistoryFrequencyError f /\ Re.match_freq f = None) \/
      (e = ValueError /\
       exists g u, Re.match_freq f = Some (Some g, u) /\
                   py_int g = Raise ValueError) \/
      (e = UnboundLocalError /\
       exists g, Re.match_freq f = Some (g, "t"%char))
  end.
Proof.
  unfold get_timeframe.
  destruct (Re.match_freq f) as [[g1 c]|] eqn:Hm; [|now left].
  destruct (match g1 with Some g => py_int g | None => Ok 1%Z end) as [k|e] eqn:Hk.
  - simpl. destruct (unit_has_kind c (match_freq_unit _ _ _ Hm)) as [u Hu].
    rewrite (unit_branches c u (format_int k) Hu).
    destruct (Ascii.eqb c "t") eqn:E; [|exact I].
    apply Ascii.eqb_eq in E. subst c. right. right. eauto.
  - simpl. destruct g1 as [g|]; [|discriminate Hk].
    pose proof (py_int_raises _ _ Hk) as ->. right. left. eauto.
Qed.

(** X3: a frequency that starts with a unit letter is translated by that
    letter alone, with magnitude 1, whatever follows it: ["minute"] is
    ["1m"], ["daily"] is ["1d"]. *)
Theorem get_timeframe_word (c : ascii) (rest : string) (u : unit_kind) :
  unit_of_letter c = Some u ->
  get_timeframe (String c rest) =
    if Ascii.eqb c "t" then Raise UnboundLocalError else Ok (native 1 u).
Proof.
  intros Hu. destruct (unit_of_letter_is_unit _ _ Hu) as [Hunit Hnd].
  unfold get_timeframe. simpl. rewrite Hnd, Hunit. simpl.
  apply (unit_branches c u "1" Hu).
Qed.

Lemma get_timeframe_word_witness :
  get_timeframe "daily" = Ok (native 1 Day).
Proof. apply (get_timeframe_word "d" "aily" Day). reflexivity. Defined.

Lemma dot_star_unit_no_unit (s : string) :
  Str.forallb (fun c => negb (Re.is_unit c)) s = true ->
  Re.dot_star_unit s = None.
Proof.
  induction s as [|c s IH]; simpl; [reflexivity|].
  intros [Hc Hs]%andb_true_iff. rewrite (IH Hs).
  apply negb_true_iff in Hc. rewrite Hc. now destruct (Ascii.eqb c Re.newline).
Qed.

Lemma match_freq_tail (ds tail : string) (c : ascii) :
  Str.forallb Str.is_digit ds = true -> ds <> EmptyString ->
  Re.is_unit c = true ->
  Str.forallb (fun c => negb (Re.is_unit c)) tail = true ->
  Re.match_freq (ds ++ String c tail) = Some (Some ds, c).
Proof.
  intros Hd Hne Hc Ht. destruct ds as [|d s]; [contradiction|].
  simpl in *. apply andb_true_iff in Hd as [Hd Hs]. rewrite Hd.
  assert (H : Re.dot_star_unit (s ++ String c tail) = Some (s, c)).
  { clear Hne Hd. induction s as [|x s IH]; simpl in *.
    - now rewrite unit_not_newline, dot_star_unit_no_unit, Hc.
    - apply andb_true_iff in Hs as [Hx Hs].
      destruct (digit_facts x Hx) as (_ & _ & -> & _). now rewrite (IH Hs). }
  now rewrite H.
Qed.

(** X4: after a magnitude and its unit letter, text without a unit
    letter is ignored: ["15min"] is translated as ["15m"]. *)
Theorem get_timeframe_ignores_tail (ds tail : string) (c : ascii) :
  Str.forallb Str.is_digit ds = true -> ds <> EmptyString ->
  Re.is_unit c = true ->
  Str.forallb (fun c => negb (Re.is_unit c)) tail = true ->
  get_timeframe (ds ++ String c tail) = get_timeframe (ds ++ String c EmptyString).
Proof.
  intros Hd Hne Hc Ht. unfold get_timeframe.
  now rewrite match_freq_tail, (match_freq_tail ds EmptyString) by auto.
Qed.

Lemma get_timeframe_ignores_tail_witness :
  get_timeframe "15min" = get_timeframe "15m".
Proof.
  apply (get_timeframe_ignores_tail "15" "in" "m"); try reflexivity.
  discriminate.
Defined.

Lemma unit_not_space (c : ascii) :
  Re.is_unit c = true -> Str.is_space c = false.
Proof.
  destruct c as [[] [] [] [] [] [] [] []]; vm_compute; intros H;
    try discriminate H; reflexivity.
Qed.

Lemma dot_star_unit_last (g : string) (u : ascii) :
  Str.count Re.newline g = 0 -> Re.is_unit u = true ->
  Re.dot_star_unit (g ++ String u EmptyString) = Some (g, u).
Proof.
  intros Hg Hu. induction g as [|x g IH]; simpl in *.
  - now rewrite unit_not_newline, Hu.
  - destruct (Ascii.eqb x Re.newline); [discriminate|]. now rewrite IH.
Qed.

Lemma rstrip_last (s : string) (c : ascii) :
  Str.is_space c = false ->
  Str.rstrip (s ++ String c EmptyString) = s ++ String c EmptyString.
Proof.
  intros Hc. induction s as [|x s IH]; simpl.
  - now rewrite Hc.
  - rewrite IH. now destruct s.
Qed.

Lemma drop_underscores_last (s : string) (c : ascii) (b : bool) :
  Str.is_digit c = false ->
  drop_underscores b (s ++ String c EmptyString) = None.
Proof.
  intros Hc. revert b. induction s as [|x s IH]; intros b; simpl.
  - rewrite Hc. destruct (Ascii.eqb c "_"), b; reflexivity.
  - destruct (Ascii.eqb x "_").
    + destruct b; [apply IH|reflexivity].
    + now rewrite IH.
Qed.

(** [int] rejects text that starts with a digit and ends with a
    character that is neither a digit nor white space. *)
Lemma py_int_trailing (d c : ascii) (g : string) :
  Str.is_digit d = true -> Str.is_digit c = false -> Str.is_space c = false ->
  py_int (String d (g ++ String c EmptyString)) = Raise ValueError.
Proof.
  intros Hd Hc Hs. unfold py_int, Str.strip. simpl Str.lstrip.
  destruct (digit_facts d Hd) as (Hsp & _). rewrite Hsp.
  destruct (rstrip_head d (g ++ String c EmptyString) Hsp) as (t & Ht).
  rewrite Ht, sign_free by assumption.
  pose proof (rstrip_last (String d g) c Hs) as Hlast.
  change (String d g ++ String c EmptyString)
    with (String d (g ++ String c EmptyString)) in Hlast.
  rewrite Ht in Hlast. injection Hlast as ->.
  unfold py_int_digits.
  change (String d (g ++ String c EmptyString))
    with (String d g ++ String c EmptyString).
  now rewrite drop_underscores_last.
Qed.

(** X5: a magnitude followed, on its line, by text that ends with two
    unit letters is no invalid frequency for [get_timeframe]: the
    pattern takes the last letter as the unit and [int] fails on what
    is in front of it, with [ValueError]; so for ["5mm"]. *)
Theorem get_timeframe_two_units (d : ascii) (g : string) (c u : ascii) :
  Str.is_digit d = true ->
  Str.count Re.newline g = 0 ->
  Re.is_unit c = true -> Re.is_unit u = true ->
  get_timeframe (String d (g ++ String c (String u EmptyString)))
    = Raise ValueError.
Proof.
  intros Hd Hg Hc Hu.
  assert (Hsplit : g ++ String c (String u EmptyString)
                   = (g ++ String c EmptyString) ++ String u EmptyString).
  { clear. induction g as [|x g IH]; [reflexivity|].
    change (String x (g ++ String c (String u EmptyString))
            = String x ((g ++ String c EmptyString) ++ String u EmptyString)).
    now rewrite <- IH. }
  assert (Hm : Re.match_freq (String d (g ++ String c (String u EmptyString)))
               = Some (Some (String d (g ++ String c EmptyString)), u)).
  { rewrite Hsplit. cbn [Re.match_freq]. rewrite Hd.
    rewrite dot_star_unit_last; [reflexivity| |assumption].
    rewrite count_app. simpl. rewrite unit_not_newline by assumption. lia. }
  unfold get_timeframe. rewrite Hm.
  now rewrite py_int_trailing
    by (assumption || now apply unit_not_digit || now apply unit_not_space).
Qed.

Lemma get_timeframe_two_units_witness :
  get_timeframe "5mm" = Raise ValueError.
Proof.
  apply (get_timeframe_two_units "5" "" "m" "m"); reflexivity.
Defined.

(** ** The symbol codec *)

Lemma split_two (sep : ascii) (s : string) :
  1 <= Str.count sep s ->
  exists a b rest, Str.split sep s = a :: b :: rest.
Proof.
  induction s as [|c s IH]; simpl; [lia|].
  destruct (Ascii.eqb c sep).
  - intros _. pose proof (split_not_nil sep s) as Hne.
    destruct (Str.split sep s) as [|b rest]; [contradiction|].
    now exists EmptyString, b, rest.
  - intros Hs. destruct (IH Hs) as (a & b & rest & ->).
    now exists (String c a), b, rest.
Qed.

Lemma index_raises {A} (l : list A) (i : nat) (e : exn) :
  index l i = Raise e -> e = IndexError.
Proof. unfold index. destruct (nth_error l i); [discriminate|now intros [= <-]]. Qed.

(** X6: on an asset whose symbol is a string, [get_symbol] fails with
    [IndexError] exactly when the symbol has no underscore. *)
Theorem get_symbol_index_error (asset : TradingPair) (s : string) :
  symbol asset = VStr s ->
  (get_symbol asset = Raise IndexError <-> Str.count "_" s = 0).
Proof.
  intros Hs. unfold get_symbol, symbol_parts. rewrite Hs. simpl. split.
  - intros H. destruct (Str.count "_" s) as [|n] eqn:E; [reflexivity|].
    destruct (split_two "_" s) as (a & b & rest & Hsplit); [lia|].
    rewrite Hsplit in H. discriminate H.
  - intros H. now rewrite split_no_sep.
Qed.

Lemma get_symbol_index_error_witness :
  get_symbol (TradingPair_init (<["symbol" := VStr "btcusd"]> ∅))
    = Raise IndexError <-> Str.count "_" "btcusd" = 0.
Proof.
  apply (get_symbol_index_error _ "btcusd"). vm_compute. reflexivity.
Defined.

(** X7: [get_catalyst_symbol] fails, with [IndexError], exactly on the
    markets whose native symbol has no slash. *)
Theorem get_catalyst_symbol_index_error (m : market) :
  (get_catalyst_symbol m = Raise IndexError <-> Str.count "/" (market_symbol m) = 0) /\
  match get_catalyst_symbol m with
  | Ok _ => True
  | Raise e => e = IndexError
  end.
Proof.
  unfold get_catalyst_symbol. split; [split|].
  - intros H. destruct (Str.count "/" (market_symbol m)) as [|n] eqn:E; [reflexivity|].
    destruct (split_two "/" (market_symbol m)) as (a & b & rest & Hsplit); [lia|].
    rewrite Hsplit in H. discriminate H.
  - intros H. now rewrite split_no_sep.
  - cbv zeta.
    destruct (index (Str.split "/" (market_symbol m)) 0) as [p0|e0] eqn:E0;
      [|exact (index_raises _ _ _ E0)].
    destruct (index (Str.split "/" (market_symbol m)) 1) as [p1|e1] eqn:E1;
      [exact I | exact (index_raises _ _ _ E1)].
Qed.

(** X8: both directions of the codec look at the first two parts of a
    symbol only: ["A/B/C"] becomes ["a_b"] and ["a_b_c"] becomes
    ["A/B"]. *)
Theorem codec_first_two_parts (a b rest : string) :
  (Str.count "/" a = 0 -> Str.count "/" b = 0 ->
   forall m : market,
     market_symbol m = a ++ String "/" (b ++ String "/" rest) ->
     get_catalyst_symbol m = Ok (Str.lower a ++ String "_" (Str.lower b))) /\
  (Str.count "_" a = 0 -> Str.count "_" b = 0 ->
   forall asset : TradingPair,
     symbol asset = VStr (a ++ String "_" (b ++ String "_" rest)) ->
     get_symbol asset = Ok (Str.upper a ++ String "/" (Str.upper b))).
Proof.
  split.
  - intros Ha Hb m Hm. unfold get_catalyst_symbol.
    now rewrite Hm, !split_app by assumption.
  - intros Ha Hb asset Hs. unfold get_symbol, symbol_parts.
    now rewrite Hs, !split_app by assumption.
Qed.

Lemma codec_first_two_parts_witness :
  get_catalyst_symbol (mkMarket "X" "BTC/USD/PERP" ∅) = Ok "btc_usd" /\
  get_symbol (TradingPair_init (<["symbol" := VStr "btc_usd_perp"]> ∅))
    = Ok "BTC/USD".
Proof.
  destruct (codec_first_two_parts "BTC" "USD" "PERP") as [Hn _].
  destruct (codec_first_two_parts "btc" "usd" "perp") as [_ Hi].
  split.
  - apply Hn; reflexivity.
  - apply Hi; vm_compute; reflexivity.
Defined.

Lemma upper_lower_char (c : ascii) :
  Str.is_lower c = false -> Str.upper_char (Str.lower_char c) = c.
Proof. by_cases_on_ascii c. Qed.

Lemma lower_char_underscore (c : ascii) :
  Ascii.eqb (Str.lower_char c) "_" = Ascii.eqb c "_".
Proof. by_cases_on_ascii c. Qed.

Lemma upper_char_underscore (c : ascii) :
  Ascii.eqb (Str.upper_char c) "_" = Ascii.eqb c "_".
Proof. by_cases_on_ascii c. Qed.

Lemma upper_char_not_lower (c : ascii) :
  Str.is_lower (Str.upper_char c) = false.
Proof. by_cases_on_ascii c. Qed.

Lemma upper_lower (s : string) :
  Str.forallb (fun c => negb (Str.is_lower c)) s = true ->
  Str.upper (Str.lower s) = s.
Proof.
  unfold Str.upper, Str.lower.
  induction s as [|c s IH]; simpl; [reflexivity|].
  intros [Hc Hs]%andb_true_iff.
  rewrite upper_lower_char by (now apply negb_true_iff). now rewrite IH.
Qed.

Lemma count_lower_underscore (s : string) :
  Str.count "_" (Str.lower s) = Str.count "_" s.
Proof.
  unfold Str.lower. induction s as [|c s IH]; simpl; [reflexivity|].
  now rewrite lower_char_underscore, IH.
Qed.

Lemma upper_shape (s : string) :
  Str.count "_" (Str.upper s) = Str.count "_" s /\
  Str.forallb (fun c => negb (Str.is_lower c)) (Str.upper s) = true.
Proof.
  unfold Str.upper. induction s as [|c s [IHc IHf]]; simpl; [now split|].
  now rewrite upper_char_underscore, upper_char_not_lower, IHc, IHf.
Qed.

(** X9: a symbol returned by [get_catalyst_symbol] has no slash and no
    upper-case letter, and it has an underscore. *)
Theorem get_catalyst_symbol_shape (m : market) (r : string) :
  get_catalyst_symbol m = Ok r ->
  Str.count "/" r = 0 /\
  Str.forallb (fun c => negb (Str.is_upper c)) r = true /\
  1 <= Str.count "_" r.
Proof.
  unfold get_catalyst_symbol.
  destruct (index (Str.split "/" (market_symbol m)) 0) as [p0|] eqn:E0;
    [|discriminate].
  destruct (index (Str.split "/" (market_symbol m)) 1) as [p1|] eqn:E1;
    [|discriminate].
  simpl. intros [= <-].
  apply index_In, split_parts_free in E0, E1.
  destruct (lower_shape p0) as [Hc0 Hf0], (lower_shape p1) as [Hc1 Hf1].
  change ("_" +:+ Str.lower p1) with (String "_" (Str.lower p1)).
  rewrite !count_app, forallb_app. cbn [Str.count Str.forallb].
  rewrite Hc0, Hc1, E0, E1, Hf0, Hf1.
  assert (Ascii.eqb "_" "/" = false) as -> by reflexivity.
  assert (Ascii.eqb "_" "_" = true) as -> by reflexivity.
  assert (Str.is_upper "_" = false) as -> by reflexivity.
  repeat split. lia.
Qed.

Lemma get_catalyst_symbol_shape_witness :
  Str.count "/" "btc_usd" = 0 /\
  Str.forallb (fun c => negb (Str.is_upper c)) "btc_usd" = true /\
  1 <= Str.count "_" "btc_usd".
Proof.
  apply (get_catalyst_symbol_shape (mkMarket "BTC/USD" "Btc/Usd" ∅)).
  reflexivity.
Defined.

(** X10: a symbol returned by [get_symbol] has no underscore and no
    lower-case letter, and it has a slash. *)
Theorem get_symbol_shape (asset : TradingPair) (r : string) :
  get_symbol asset = Ok r ->
  Str.count "_" r = 0 /\
  Str.forallb (fun c => negb (Str.is_lower c)) r = true /\
  1 <= Str.count "/" r.
Proof.
  unfold get_symbol, symbol_parts.
  destruct (symbol asset) as [| | |s| | | |]; try discriminate. simpl.
  destruct (index (Str.split "_" s) 0) as [p0|] eqn:E0; [|discriminate].
  destruct (index (Str.split "_" s) 1) as [p1|] eqn:E1; [|discriminate].
  simpl. intros [= <-].
  apply index_In, split_parts_free in E0, E1.
  destruct (upper_shape p0) as [Hc0 Hf0], (upper_shape p1) as [Hc1 Hf1].
  change ("/" +:+ Str.upper p1) with (String "/" (Str.upper p1)).
  rewrite !count_app, forallb_app. cbn [Str.count Str.forallb].
  rewrite Hc0, Hc1, E0, E1, Hf0, Hf1.
  assert (Ascii.eqb "/" "_" = false) as -> by reflexivity.
  assert (Ascii.eqb "/" "/" = true) as -> by reflexivity.
  assert (Str.is_lower "/" = false) as -> by reflexivity.
  repeat split. lia.
Qed.

Lemma get_symbol_shape_witness :
  Str.count "_" "BTC/USD" = 0 /\
  Str.forallb (fun c => negb (Str.is_lower c)) "BTC/USD" = true /\
  1 <= Str.count "/" "BTC/USD".
Proof.
  apply (get_symbol_shape btc_usd). vm_compute. reflexivity.
Defined.

(** X11: the round trip in the other direction: for a market whose
    native symbol is [BASE/QUOTE], in ASCII, without lower-case letters
    and without underscore, the asset that carries the internal symbol
    of the market is sent back to the market's own native symbol. *)
Theorem native_round_trip (m : market) (base quote : string) :
  market_symbol m = base ++ String "/" quote ->
  Str.forallb Str.is_ascii base = true ->
  Str.forallb Str.is_ascii quote = true ->
  Str.count "/" base = 0 -> Str.count "/" quote = 0 ->
  Str.count "_" base = 0 -> Str.count "_" quote = 0 ->
  Str.forallb (fun c => negb (Str.is_lower c)) base = true ->
  Str.forallb (fun c => negb (Str.is_lower c)) quote = true ->
  get_catalyst_symbol m = Ok (native_to_internal base quote) /\
  forall asset : TradingPair,
    symbol asset = VStr (native_to_internal base quote) ->
    get_symbol asset = Ok (market_symbol m).
Proof.
  intros Hm _ _ Hsb Hsq Hub Huq Hlb Hlq.
  split; [now apply get_catalyst_symbol_parts|].
  intros asset Hs. unfold native_to_internal in Hs.
  rewrite (get_symbol_parts asset (Str.lower base) (Str.lower quote));
    [| assumption | now rewrite count_lower_underscore
     | now rewrite count_lower_underscore].
  now rewrite !upper_lower, Hm by assumption.
Qed.

Lemma native_round_trip_witness :
  get_catalyst_symbol eth_market = Ok (native_to_internal "ETH" "USD") /\
  forall asset : TradingPair,
    symbol asset = VStr (native_to_internal "ETH" "USD") ->
    get_symbol asset = Ok (market_symbol eth_market).
Proof.
  apply (native_round_trip eth_market "ETH" "USD"); reflexivity.
Defined.

(** ** Resolution and the asset table *)

Lemma catalog_entries_lower
    (catalog : option (list (string * gmap string value))) (id id' : string) :
  Str.lower id = Str.lower id' ->
  catalog_entries catalog id = catalog_entries catalog id'.
Proof.
  unfold catalog_entries. generalize (Str.lower id) (Str.lower id').
  now intros l l' ->.
Qed.

(** [bind_ok] with the names of the value and of the equation. *)
Ltac bind_as H x E :=
  match type of H with
  | bind ?r _ = Ok _ =>
      destruct r as [x|] eqn:E; simpl in H; [|discriminate H]
  end.

(** X12: resolution does not see the case of the market id. *)
Theorem fetch_asset_case_insensitive
    (fetch_symbol_map : bool -> option (list (string * gmap string value)))
    (id id' : string) (is_local : bool) :
  Str.lower id = Str.lower id' ->
  _fetch_asset fetch_symbol_map id is_local =
  _fetch_asset fetch_symbol_map id' is_local.
Proof.
  intros H. destruct is_local.
  - now rewrite !fetch_asset_local, (catalog_entries_lower _ id id' H).
  - now rewrite !fetch_asset_remote,
      (catalog_entries_lower _ id id' H), (catalog_entries_lower _ id id' H).
Qed.

Lemma fetch_asset_case_insensitive_witness :
  _fetch_asset remote_catalog "BTC/USD" false =
  _fetch_asset remote_catalog "btc/Usd" false.
Proof.
  apply (fetch_asset_case_insensitive remote_catalog "BTC/USD" "btc/Usd").
  reflexivity.
Defined.

Section Table.

Context (name : string)
        (fetch_symbol_map : bool -> option (list (string * gmap string value)))
        (mixin_market_params :
           string -> gmap string value -> market -> result (gmap string value))
        (to_datetime : value -> result value).

Local Abbreviation market_params' :=
  (market_params name fetch_symbol_map mixin_market_params to_datetime).
Local Abbreviation load_assets' :=
  (load_assets name fetch_symbol_map mixin_market_params to_datetime).
Local Abbreviation init_assets' :=
  (init_assets name fetch_symbol_map mixin_market_params to_datetime).

(** X13: the entry of a market resolved to a catalog record has the
    symbol of the record, its leverage or 1.0, its display name or
    null; a date the record does not have is null, and so is an end of
    daily or minute data that carries ["N/A"]; a start date the record
    has is what [pd.to_datetime] makes of it. *)
Theorem resolved_entry_fields (m : market) (asset p : gmap string value)
    (is_local : bool) :
  _fetch_asset fetch_symbol_map (market_id m) false = (Some asset, is_local) ->
  market_params' m = Ok p ->
  Ok (symbol (TradingPair_init p)) = dict_get asset "symbol" /\
  leverage (TradingPair_init p) = default (VFloat float_one) (asset !! "leverage") /\
  asset_name (TradingPair_init p) = default VNone (asset !! "asset_name") /\
  (asset !! "start_date" = None -> start_date (TradingPair_init p) = VNone) /\
  (asset !! "end_date" = None -> end_date (TradingPair_init p) = VNone) /\
  (asset !! "end_daily" = None \/ asset !! "end_daily" = Some (VStr "N/A") ->
   end_daily (TradingPair_init p) = VNone) /\
  (asset !! "end_minute" = None \/ asset !! "end_minute" = Some (VStr "N/A") ->
   end_minute (TradingPair_init p) = VNone) /\
  (forall v, asset !! "start_date" = Some v ->
             Ok (start_date (TradingPair_init p)) = to_datetime v).
Proof.
  intros Hf. unfold market_params. rewrite Hf. intros H. bind_ok H.
  destruct (asset_params_fields _ _ _ _ H)
    as (Hsym & Hlev & Hname & Hsd & Hed & Hdl & Hmn).
  unfold TradingPair_init, kwarg. simpl.
  repeat split.
  - exact Hsym.
  - now rewrite Hlev.
  - now rewrite Hname.
  - intros Ha. rewrite date_param_absent in Hsd by assumption.
    now injection Hsd.
  - intros Ha. rewrite date_param_absent in Hed by assumption.
    now injection Hed.
  - intros Ha. rewrite date_param_na_sentinel in Hdl by assumption.
    now injection Hdl.
  - intros Ha. rewrite date_param_na_sentinel in Hmn by assumption.
    now injection Hmn.
  - intros v Hv. unfold date_param in Hsd. now rewrite Hv in Hsd.
Qed.

(** X14: a catalog record without a symbol ends the construction of the
    entry with [KeyError], once [mixin_market_params] has returned. *)
Theorem record_without_symbol (m : market) (asset : gmap string value)
    (is_local : bool) :
  mixin_returns mixin_market_params ->
  _fetch_asset fetch_symbol_map (market_id m) false = (Some asset, is_local) ->
  asset !! "symbol" = None ->
  market_params' m = Raise (KeyError "symbol") /\
  forall (assets : gmap string TradingPair) (rest : list market),
    load_assets' assets (m :: rest) = Raise (KeyError "symbol").
Proof.
  intros Hret Hf Hs.
  assert (Hp : market_params' m = Raise (KeyError "symbol")).
  { unfold market_params. rewrite Hf.
    destruct (Hret name
                (<["exchange_symbol" := VStr (market_id m)]>
                   (<["data_source" := VStr (if is_local then "local" else "catalyst")]>
                      (<["exchange" := VStr name]> ∅))) m) as [p' ->].
    simpl. unfold asset_params, dict_get. now rewrite Hs. }
  split; [assumption|].
  intros assets rest. unfold load_assets. simpl.
  unfold load_asset at 1. now rewrite Hp.
Qed.

(** X15: the data source of an entry of the table is ["catalyst"] when
    the remote catalog has a record for its key, and ["local"]
    otherwise, whether the local catalog has one or none has. *)
Theorem table_data_source (markets : list market)
    (table : gmap string TradingPair) (k : string) (tp : TradingPair) :
  mixin_frame mixin_market_params ->
  init_assets' markets = Ok table ->
  table !! k = Some tp ->
  data_source tp =
    VStr (match catalog_entries (fetch_symbol_map false) k with
          | [] => "local"
          | _ :: _ => "catalyst"
          end).
Proof.
  intros Hframe Hinit Hk.
  destruct (load_assets_entry _ _ _ _ _ _ _ _ _ Hinit Hk)
    as [Hempty | (m & p & _ & <- & Hp & ->)].
  - now rewrite lookup_empty in Hempty.
  - destruct (market_params_keys _ _ _ _ _ _ Hframe Hp) as (_ & _ & Hds).
    unfold TradingPair_init, kwarg. simpl. rewrite Hds. simpl.
    rewrite fetch_asset_remote.
    destruct (catalog_entries (fetch_symbol_map false) (market_id m))
      as [|r rs] eqn:E; simpl; [reflexivity|].
    rewrite last_cons. now destruct (last rs).
Qed.

Lemma load_assets_app (ms1 ms2 : list market) (assets : gmap string TradingPair) :
  load_assets' assets (ms1 ++ ms2)%list =
  let* table := load_assets' assets ms1 in load_assets' table ms2.
Proof.
  unfold load_assets. revert assets.
  induction ms1 as [|m ms1 IH]; intros assets; simpl; [reflexivity|].
  destruct (load_asset name fetch_symbol_map mixin_market_params to_datetime
              assets m); simpl; [apply IH|reflexivity].
Qed.

(** X16: the construction stops at the first market whose entry cannot
    be built, with the exception of that market. *)
Theorem load_assets_first_error (assets : gmap string TradingPair)
    (ms1 ms2 : list market) (m : market) (e : exn) :
  (forall m', m' ∈ ms1 -> exists p, market_params' m' = Ok p) ->
  market_params' m = Raise e ->
  load_assets' assets (ms1 ++ m :: ms2)%list = Raise e.
Proof.
  intros Hok He. rewrite load_assets_app.
  destruct (load_assets_returns _ _ _ _ ms1 assets Hok) as [t ->]. simpl.
  unfold load_assets. simpl. unfold load_asset at 1. now rewrite He.
Qed.

(** X17: of several descriptors with one market id, the last one makes
    the entry of the table. *)
Theorem load_assets_last_wins (assets table : gmap string TradingPair)
    (ms1 ms2 : list market) (m : market) :
  load_assets' assets (ms1 ++ m :: ms2)%list = Ok table ->
  market_id m ∉ market_id <$> ms2 ->
  exists p, market_params' m = Ok p /\
            table !! market_id m = Some (TradingPair_init p).
Proof.
  rewrite load_assets_app. intros H Hlast.
  bind_as H t1 Ht1.
  unfold load_assets in H. simpl in H. bind_as H t2 Ht2.
  unfold load_asset in Ht2. bind_as Ht2 p Hp. injection Ht2 as <-.
  exists p. split; [reflexivity|].
  rewrite (load_assets_other _ _ _ _ _ _ _ _ H Hlast).
  apply lookup_insert_eq.
Qed.

Lemma load_assets_built (markets : list market)
    (assets table : gmap string TradingPair) :
  load_assets' assets markets = Ok table ->
  forall m, m ∈ markets -> exists p, market_params' m = Ok p.
Proof.
  revert assets. induction markets as [|m0 ms IH]; intros assets H m Hm.
  - now apply elem_of_nil in Hm.
  - unfold load_assets in H. simpl in H. bind_ok H.
    unfold load_asset in E. bind_ok E.
    apply elem_of_cons in Hm as [-> | Hm]; [eauto|].
    now apply (IH _ H).
Qed.

Lemma load_assets_agree (markets : list market)
    (a a' t t' : gmap string TradingPair) :
  load_assets' a markets = Ok t ->
  load_assets' a' markets = Ok t' ->
  (forall k, k ∉ market_id <$> markets -> a !! k = a' !! k) ->
  t = t'.
Proof.
  revert a a'. induction markets as [|m ms IH]; intros a a' H H' Hout.
  - injection H as <-. injection H' as <-. apply map_eq. intros k.
    apply Hout. apply not_elem_of_nil.
  - unfold load_assets in H, H'. simpl in H, H'. bind_ok H. bind_ok H'.
    unfold load_asset in E, E0.
    destruct (market_params' m) as [p|]; [|discriminate].
    simpl in E, E0. injection E as <-. injection E0 as <-.
    apply (IH _ _ H H'). intros k Hk.
    destruct (decide (market_id m = k)) as [<-|Hne].
    + now rewrite !lookup_insert_eq.
    + rewrite !lookup_insert_ne by assumption. apply Hout.
      rewrite fmap_cons. apply not_elem_of_cons. split; [congruence|assumption].
Qed.

(** X18: loading the same markets again leaves the table as it is. *)
Theorem load_assets_again (markets : list market)
    (assets table : gmap string TradingPair) :
  load_assets' assets markets = Ok table ->
  load_assets' table markets = Ok table.
Proof.
  intros H.
  destruct (load_assets_returns _ _ _ _ markets table
              (load_assets_built _ _ _ H)) as [t' Ht'].
  rewrite Ht'. f_equal. symmetry.
  apply (load_assets_agree markets assets table table t' H Ht').
  intros k Hk. symmetry. now apply (load_assets_other _ _ _ _ _ _ _ _ H).
Qed.

End Table.

Lemma resolved_entry_fields_witness :
  Ok (symbol (TradingPair_init btc_params)) = dict_get btc_record "symbol" /\
  leverage (TradingPair_init btc_params)
    = default (VFloat float_one) (btc_record !! "leverage") /\
  asset_name (TradingPair_init btc_params)
    = default VNone (btc_record !! "asset_name") /\
  (btc_record !! "start_date" = None ->
   start_date (TradingPair_init btc_params) = VNone) /\
  (btc_record !! "end_date" = None ->
   end_date (TradingPair_init btc_params) = VNone) /\
  (btc_record !! "end_daily" = None \/ btc_record !! "end_daily" = Some (VStr "N/A") ->
   end_daily (TradingPair_init btc_params) = VNone) /\
  (btc_record !! "end_minute" = None \/ btc_record !! "end_minute" = Some (VStr "N/A") ->
   end_minute (TradingPair_init btc_params) = VNone) /\
  (forall v, btc_record !! "start_date" = Some v ->
             Ok (start_date (TradingPair_init btc_params)) = date_stub v).
Proof.
  apply (resolved_entry_fields "bitfinex" remote_catalog lot_mixin date_stub
           btc_market btc_record btc_params false);
    vm_compute; reflexivity.
Defined.

Lemma record_without_symbol_witness :
  market_params "bitfinex" nameless_catalog lot_mixin date_stub btc_market
    = Raise (KeyError "symbol") /\
  forall (assets : gmap string TradingPair) (rest : list market),
    load_assets "bitfinex" nameless_catalog lot_mixin date_stub assets
      (btc_market :: rest) = Raise (KeyError "symbol").
Proof.
  eapply (record_without_symbol "bitfinex" nameless_catalog lot_mixin date_stub
            btc_market).
  - apply lot_mixin_returns.
  - vm_compute. reflexivity.
  - reflexivity.
Defined.

Lemma table_data_source_witness :
  data_source eth_entry =
    VStr (match catalog_entries (remote_catalog false) "ETH/USD" with
          | [] => "local"
          | _ :: _ => "catalyst"
          end).
Proof.
  apply (table_data_source "bitfinex" remote_catalog lot_mixin date_stub
           [btc_market; eth_market] example_table "ETH/USD" eth_entry);
    [apply lot_mixin_frame | vm_compute; reflexivity | vm_compute; reflexivity].
Defined.

Lemma load_assets_first_error_witness :
  load_assets "bitfinex" no_catalogs lot_mixin date_stub ∅
    ([btc_market] ++ xbt_market :: [eth_market])%list = Raise IndexError.
Proof.
  apply (load_assets_first_error "bitfinex" no_catalogs lot_mixin date_stub
           ∅ [btc_market] [eth_market] xbt_market IndexError).
  - intros m' Hm'. apply elem_of_cons in Hm' as [-> | Hm'].
    + exists (from_ok ∅ (market_params "bitfinex" no_catalogs lot_mixin
                          date_stub btc_market)).
      vm_compute. reflexivity.
    + now apply elem_of_nil in Hm'.
  - vm_compute. reflexivity.
Defined.

Lemma load_assets_last_wins_witness :
  exists p,
    market_params "bitfinex" no_catalogs lot_mixin date_stub btc_market_again = Ok p /\
    again_table !! market_id btc_market_again = Some (TradingPair_init p).
Proof.
  apply (load_assets_last_wins "bitfinex" no_catalogs lot_mixin date_stub
           ∅ again_table [btc_market] [eth_market] btc_market_again).
  - vm_compute. reflexivity.
  - simpl. not_in_list.
Defined.

Lemma load_assets_again_witness :
  load_assets "bitfinex" remote_catalog lot_mixin date_stub example_table
    [btc_market; eth_market] = Ok example_table.
Proof.
  apply (load_assets_again "bitfinex" remote_catalog lot_mixin date_stub
           [btc_market; eth_market] ∅).
  vm_compute. reflexivity.
Defined.

(** ** Candles, again *)

Lemma map_result_Forall2 {A B} (f : A -> result B) (xs : list A) (ys : list B) :
  map_result f xs = Ok ys -> Forall2 (fun x y => f x = Ok y) xs ys.
Proof.
  revert ys. induction xs as [|x xs IH]; simpl; intros ys.
  - intros [= <-]. constructor.
  - intros H. bind_as H y Hy. bind_as H ys' Hys. injection H as <-.
    constructor; [assumption | now apply IH].
Qed.

Section CandlesAgain.

Context (to_datetime_ms : value -> result value)
        (seconds_since_epoch : value -> result Z)
        (fetch_ohlcv : string -> string -> Z -> value -> result value).

Local Abbreviation get_candles' :=
  (get_candles to_datetime_ms seconds_since_epoch fetch_ohlcv).
Local Abbreviation candle' := (candle to_datetime_ms).

(** X19: the candles [get_candles] returns are as many as the rows of
    the exchange and in their order: the i-th candle is made of the
    i-th row. *)
Theorem get_candles_rows (freq : string) (assets : list TradingPair)
    (bar_count start_dt end_dt : value) (candles : list value) :
  (get_candles' freq assets bar_count start_dt end_dt).2 = Ok candles ->
  exists sym tf ms ohlcvs rows,
    fetch_ohlcv sym tf ms bar_count = Ok ohlcvs /\
    iterate ohlcvs = Ok rows /\
    length candles = length rows /\
    Forall2 (fun row c => candle' row = Ok c) rows candles.
Proof.
  unfold get_candles.
  destruct (candles_request seconds_since_epoch freq assets start_dt)
    as [[[sym tf] ms]|]; simpl; [|discriminate].
  intros H. bind_as H ohlcvs Hf. bind_as H rows Hi.
  exists sym, tf, ms, ohlcvs, rows. repeat split; try assumption.
  - now apply map_result_length in H.
  - now apply map_result_Forall2.
Qed.

(** X20: a row makes a candle exactly when it is a list of at least six
    items whose first one [pd.to_datetime] accepts as milliseconds;
    the candle has that time and the next five items, unchanged, as
    open, high, low, close and volume; further items are ignored. *)
Theorem candle_of_row (items : list value) (c : value) :
  candle' (VList items) = Ok c <->
  exists t o h l cl v extra last_traded,
    items = t :: o :: h :: l :: cl :: v :: extra /\
    to_datetime_ms t = Ok last_traded /\
    c = VDict [("last_traded", last_traded); ("open", o); ("high", h);
               ("low", l); ("close", cl); ("volume", v)].
Proof.
  unfold candle, getitem, index. split.
  - destruct items as [|t [|o [|h [|l [|cl [|v extra]]]]]]; simpl;
      try discriminate;
      destruct (to_datetime_ms t) as [lt|] eqn:Ht; simpl; try discriminate.
    intros [= <-]. now exists t, o, h, l, cl, v, extra, lt.
  - intros (t & o & h & l & cl & v & extra & lt & -> & Ht & ->).
    simpl. now rewrite Ht.
Qed.

(** X21: without assets nothing is requested, and the call fails: with
    the error of the frequency or of the start date if there is one,
    else with [IndexError]. *)
Theorem get_candles_no_asset (freq : string) (bar_count start_dt end_dt : value) :
  get_candles' freq [] bar_count start_dt end_dt =
  ([], match get_timeframe freq with
       | Raise e => Raise e
       | Ok _ =>
           match seconds_since_epoch start_dt with
           | Raise e => Raise e
           | Ok _ => Raise IndexError
           end
       end).
Proof.
  unfold get_candles, candles_request, get_symbols. simpl.
  destruct (get_timeframe freq); simpl; [|reflexivity].
  now destruct (seconds_since_epoch start_dt).
Qed.

(** X22: a request [get_candles] sends carries the symbol of the first
    asset, the translation of the frequency, the bar count as limit,
    and as start the whole seconds of the start date, in
    milliseconds. *)
Theorem get_candles_request (freq : string) (assets : list TradingPair)
    (bar_count start_dt end_dt : value) (call : api_call) :
  call ∈ (get_candles' freq assets bar_count start_dt end_dt).1 ->
  exists a rest sym tf secs,
    assets = a :: rest /\
    get_symbol a = Ok sym /\
    get_timeframe freq = Ok tf /\
    seconds_since_epoch start_dt = Ok secs /\
    call = FetchOhlcv sym tf (secs * 1000) bar_count.
Proof.
  unfold get_candles, candles_request, get_symbols.
  destruct assets as [|a rest]; simpl.
  - destruct (get_timeframe freq); simpl;
      [destruct (seconds_since_epoch start_dt)|]; simpl;
      intros H; now apply elem_of_nil in H.
  - destruct (get_symbol a) as [sym|] eqn:Hsym; simpl;
      [|intros H; now apply elem_of_nil in H].
    destruct (map_result get_symbol rest); simpl;
      [|intros H; now apply elem_of_nil in H].
    destruct (get_timeframe freq) as [tf|]; simpl;
      [|intros H; now apply elem_of_nil in H].
    destruct (seconds_since_epoch start_dt) as [secs|]; simpl;
      [|intros H; now apply elem_of_nil in H].
    intros H. apply list_elem_of_singleton in H. subst call.
    exists a, rest, sym, tf, secs. repeat split. exact Hsym.
Qed.

(** X23: when the frequency cannot be translated nothing is requested,
    and with well-formed symbols the call fails as the translation
    does. *)
Theorem get_candles_bad_frequency (freq : string) (assets : list TradingPair)
    (bar_count start_dt end_dt : value) (e : exn) :
  get_timeframe freq = Raise e ->
  (get_candles' freq assets bar_count start_dt end_dt).1 = [] /\
  match get_symbols assets with
  | Ok _ => (get_candles' freq assets bar_count start_dt end_dt).2 = Raise e
  | Raise e' => (get_candles' freq assets bar_count start_dt end_dt).2 = Raise e'
  end.
Proof.
  intros He. unfold get_candles, candles_request.
  destruct (get_symbols assets); simpl; [|now split].
  rewrite He. now split.
Qed.

End CandlesAgain.

Lemma get_candles_rows_witness :
  exists sym tf ms ohlcvs rows,
    ohlcv_stub sym tf ms (VInt 2) = Ok ohlcvs /\
    iterate ohlcvs = Ok rows /\
    length example_candles = length rows /\
    Forall2 (fun row c => candle ms_stub row = Ok c) rows example_candles.
Proof.
  apply (get_candles_rows ms_stub seconds_stub ohlcv_stub "5T" [btc_usd] (VInt 2)
           (VTimestamp 1500000000999000000) VNone example_candles).
  vm_compute. reflexivity.
Defined.

Lemma get_candles_request_witness :
  exists a rest sym tf secs,
    [btc_usd] = a :: rest /\
    get_symbol a = Ok sym /\
    get_timeframe "5T" = Ok tf /\
    seconds_stub (VTimestamp 1500000000999000000) = Ok secs /\
    FetchOhlcv "BTC/USD" "5m" 1500000000000 (VInt 2)
      = FetchOhlcv sym tf (secs * 1000) (VInt 2).
Proof.
  apply (get_candles_request ms_stub seconds_stub ohlcv_stub "5T" [btc_usd]
           (VInt 2) (VTimestamp 1500000000999000000) VNone).
  vm_compute. apply list_elem_of_here.
Defined.

Lemma get_candles_bad_frequency_witness :
  (get_candles ms_stub seconds_stub ohlcv_stub "xyz" [btc_usd] (VInt 2)
     (VTimestamp 0) VNone).1 = [] /\
  match get_symbols [btc_usd] with
  | Ok _ =>
      (get_candles ms_stub seconds_stub ohlcv_stub "xyz" [btc_usd] (VInt 2)
         (VTimestamp 0) VNone).2 = Raise (InvalidHistoryFrequencyError "xyz")
  | Raise e' =>
      (get_candles ms_stub seconds_stub ohlcv_stub "xyz" [btc_usd] (VInt 2)
         (VTimestamp 0) VNone).2 = Raise e'
  end.
Proof.
  apply (get_candles_bad_frequency ms_stub seconds_stub ohlcv_stub "xyz").
  reflexivity.
Defined.

(** ** Tickers *)

Section Tickers.

Context (from_ms_timestamp : value -> result value)
        (fetch_ticker : string -> result (gmap string value)).

Local Abbreviation ticker_entry' := (ticker_entry from_ms_timestamp).
Local Abbreviation tickers' := (tickers from_ms_timestamp fetch_ticker).

(** X24: a ticker comes back with the time of its [timestamp] as
    [last_traded] and with its [baseVolume] as [volume], 0 when it has
    none, whatever [volume] it had; every other field is as the
    exchange gave it.  It fails only for want of a [timestamp] or with
    the conversion of the timestamp. *)
Theorem ticker_entry_fields (ticker : gmap string value) :
  match ticker_entry' ticker with
  | Ok t =>
      t !! "volume" = Some (default (VInt 0) (ticker !! "baseVolume")) /\
      (exists ts, ticker !! "timestamp" = Some ts /\
                  from_ms_timestamp ts = Ok (default VNone (t !! "last_traded"))) /\
      (forall k, k <> "volume" -> k <> "last_traded" -> t !! k = ticker !! k)
  | Raise e =>
      (ticker !! "timestamp" = None /\ e = KeyError "timestamp") \/
      (exists ts, ticker !! "timestamp" = Some ts /\ from_ms_timestamp ts = Raise e)
  end.
Proof.
  unfold ticker_entry, dict_get.
  destruct (ticker !! "timestamp") as [ts|] eqn:Hts; simpl; [|now left].
  destruct (from_ms_timestamp ts) as [lt|e] eqn:Hlt; simpl; [|right; eauto].
  repeat split.
  - rewrite lookup_insert_eq. now rewrite lookup_insert_ne by discriminate.
  - exists ts. split; [reflexivity|].
    rewrite lookup_insert_ne by discriminate. now rewrite lookup_insert_eq.
  - intros k Hv Hl. now rewrite !lookup_insert_ne by congruence.
Qed.

Lemma tickers_from (assets : list TradingPair)
    (acc out : list (TradingPair * gmap string value)) :
  for_each
    (fun acc asset =>
       let* ccxt_symbol := get_symbol asset in
       let* ticker := fetch_ticker ccxt_symbol in
       let* ticker := ticker_entry' ticker in
       Ok (acc ++ [(asset, ticker)])%list)
    assets acc = Ok out ->
  exists new,
    out = (acc ++ new)%list /\
    Forall2 (fun asset (entry : TradingPair * gmap string value) =>
               entry.1 = asset /\
               exists sym raw,
                 get_symbol asset = Ok sym /\ fetch_ticker sym = Ok raw /\
                 ticker_entry' raw = Ok entry.2)
            assets new.
Proof.
  revert acc. induction assets as [|a assets IH]; intros acc; simpl.
  - intros [= <-]. exists []. split; [now rewrite app_nil_r|constructor].
  - intros H. bind_as H acc' Hacc.
    bind_as Hacc sy Hsy. bind_as Hacc raw Hraw. bind_as Hacc t Ht.
    injection Hacc as <-.
    destruct (IH _ H) as (new & -> & Hnew).
    exists ((a, t) :: new). split; [now rewrite <- app_assoc|].
    constructor; [|assumption]. split; [reflexivity|]. now exists sy, raw.
Qed.

(** X25: when [tickers] returns, it has made one assignment for each
    asset, in the order of the assets, of the ticker the exchange gave
    for the native symbol of that asset, with the two fields added. *)
Theorem tickers_entries (assets : list TradingPair)
    (out : list (TradingPair * gmap string value)) :
  tickers' assets = Ok out ->
  length out = length assets /\
  Forall2 (fun asset (entry : TradingPair * gmap string value) =>
             entry.1 = asset /\
             exists sym raw,
               get_symbol asset = Ok sym /\ fetch_ticker sym = Ok raw /\
               ticker_entry' raw = Ok entry.2)
          assets out.
Proof.
  unfold tickers. intros H.
  destruct (tickers_from _ _ _ H) as (new & -> & Hnew). simpl.
  split; [symmetry; now apply Forall2_length in Hnew | assumption].
Qed.

End Tickers.

Lemma tickers_entries_witness :
  length example_tickers = length [btc_usd; btc_usd] /\
  Forall2 (fun asset (entry : TradingPair * gmap string value) =>
             entry.1 = asset /\
             exists sym raw,
               get_symbol asset = Ok sym /\ ticker_stub sym = Ok raw /\
               ticker_entry ms_stub raw = Ok entry.2)
          [btc_usd; btc_usd] example_tickers.
Proof.
  apply (tickers_entries ms_stub ticker_stub [btc_usd; btc_usd] example_tickers).
  vm_compute. reflexivity.
Defined.

(** ** The order book, again *)

Section OrderBookAgain.

Context (from_ms_timestamp : value -> result value)
        (float_of_str : string -> result spec_float)
        (fetch_order_book : string -> gmap string value -> result (gmap string value)).

Local Abbreviation get_orderbook' :=
  (get_orderbook from_ms_timestamp float_of_str fetch_order_book).
Local Abbreviation order_entry' := (order_entry float_of_str).
Local Abbreviation orderbook_sides' := (orderbook_sides float_of_str).

(** X26: with a depth limit of zero or less the exchange is asked for
    the book all the same, and no side is returned: the result is the
    time of the book alone. *)
Theorem get_orderbook_no_depth (asset : TradingPair) (order_type : string) (n : Z) :
  (n <= 0)%Z ->
  get_orderbook' asset order_type (Some n) =
  let* ccxt_symbol := get_symbol asset in
  let* order_book := fetch_order_book ccxt_symbol (<["depth" := VInt n]> ∅) in
  let* ts := dict_get order_book "timestamp" in
  let* last_traded := from_ms_timestamp ts in
  Ok (<["last_traded" := last_traded]> ∅).
Proof.
  intros Hn. unfold get_orderbook.
  destruct (get_symbol asset) as [sym|]; simpl; [|reflexivity].
  destruct (fetch_order_book sym _) as [ob|]; simpl; [|reflexivity].
  destruct (dict_get ob "timestamp") as [ts|]; simpl; [|reflexivity].
  destruct (from_ms_timestamp ts) as [lt|]; simpl; [|reflexivity].
  assert (Hp : (n - 1 <? 0)%Z = true) by lia.
  destruct (String.eqb order_type "all"); simpl; now rewrite Hp.
Qed.

(** X27: a side filter that is neither ["all"] nor a key of the book the
    exchange returned fails with the [KeyError] of that filter. *)
Theorem get_orderbook_unknown_side (asset : TradingPair) (order_type sym : string)
    (limit : option Z) (order_book : gmap string value) (ts last_traded : value) :
  order_type <> "all" ->
  past_limit limit 0 = false ->
  get_symbol asset = Ok sym ->
  fetch_order_book sym
    (match limit with Some n => <["depth" := VInt n]> ∅ | None => ∅ end)
    = Ok order_book ->
  order_book !! "timestamp" = Some ts ->
  from_ms_timestamp ts = Ok last_traded ->
  order_book !! order_type = None ->
  get_orderbook' asset order_type limit = Raise (KeyError order_type).
Proof.
  intros Hne Hp Hsym Hob Hts Hlt Hside. unfold get_orderbook.
  apply String.eqb_neq in Hne.
  rewrite Hsym. simpl. rewrite Hob. simpl. unfold dict_get at 1.
  rewrite Hts. simpl. rewrite Hlt, Hne. simpl. rewrite Hp.
  unfold dict_get. now rewrite Hside.
Qed.

Lemma order_entry_shape (entry row : value) :
  order_entry' entry = Ok row -> is_rate_quantity row.
Proof.
  unfold order_entry. intros H.
  bind_as H p Hp. bind_as H rate Hr. bind_as H q Hq. bind_as H quantity Hqq.
  injection H as <-. now exists rate, quantity.
Qed.

Lemma map_order_entry_shape (entries rows : list value) :
  map_result order_entry' entries = Ok rows -> Forall is_rate_quantity rows.
Proof.
  intros H. apply map_result_Forall2 in H.
  induction H as [|e r es rs He _ IH]; constructor; [|assumption].
  now apply (order_entry_shape e).
Qed.

Lemma orderbook_sides_keys (order_book : gmap string value) (limit : option Z)
    (index : Z) (order_types : list string) (res out : gmap string value) :
  orderbook_sides' order_book limit index order_types res = Ok out ->
  forall k,
    (k ∉ order_types -> out !! k = res !! k) /\
    (k ∈ order_types ->
     out !! k = res !! k \/
     exists rows, out !! k = Some (VList rows) /\ Forall is_rate_quantity rows).
Proof.
  revert index res. induction order_types as [|ot rest IH]; intros index res; simpl.
  - intros [= <-] k. split; [reflexivity|]. intros Hk. now apply elem_of_nil in Hk.
  - destruct (past_limit limit index).
    { intros [= <-] k. split; [reflexivity|]. now left. }
    intros H. bind_as H side Hside. bind_as H entries Hentries.
    bind_as H rows Hrows. intros k.
    destruct (IH _ _ H k) as [Hout Hin].
    pose proof (map_order_entry_shape _ _ Hrows) as Hshape.
    split.
    + intros Hk. apply not_elem_of_cons in Hk as [Hne Hk].
      rewrite (Hout Hk). now apply lookup_insert_ne.
    + intros _. destruct (decide (k ∈ rest)) as [Hk|Hk].
      * destruct (Hin Hk) as [Heq | Hrows']; [|now right].
        rewrite Heq. destruct (decide (ot = k)) as [<-|Hne].
        -- right. exists rows. now rewrite lookup_insert_eq.
        -- left. now apply lookup_insert_ne.
      * rewrite (Hout Hk). destruct (decide (ot = k)) as [<-|Hne].
        -- right. exists rows. now rewrite lookup_insert_eq.
        -- left. now apply lookup_insert_ne.
Qed.

(** X28: a result of [get_orderbook] has the key [last_traded] and, at
    most, the requested sides besides; under every requested side but
    [last_traded] itself there is a list of entries, each a rate and a
    quantity that are floats. *)
Theorem get_orderbook_result (asset : TradingPair) (order_type : string)
    (limit : option Z) (res : gmap string value) :
  get_orderbook' asset order_type limit = Ok res ->
  is_Some (res !! "last_traded") /\
  forall k v,
    res !! k = Some v -> k <> "last_traded" ->
    (k = order_type \/ (order_type = "all" /\ (k = "bids" \/ k = "asks"))) /\
    exists rows, v = VList rows /\ Forall is_rate_quantity rows.
Proof.
  unfold get_orderbook. intros H.
  bind_as H sy Hsy. bind_as H ob Hob. bind_as H ts Hts. bind_as H traded Htraded.
  pose proof (orderbook_sides_keys _ _ _ _ _ _ H) as Hkeys.
  split.
  - destruct (Hkeys "last_traded") as [Hout Hin].
    match type of H with
    | orderbook_sides _ _ _ _ ?ots _ = _ =>
        destruct (decide ("last_traded" ∈ ots)) as [Hk|Hk]
    end.
    + destruct (Hin Hk) as [-> | (rows & -> & _)]; [|eauto].
      rewrite lookup_insert_eq. eauto.
    + rewrite (Hout Hk), lookup_insert_eq. eauto.
  - intros k v Hv Hne. destruct (Hkeys k) as [Hout Hin].
    match type of H with
    | orderbook_sides _ _ _ _ ?ots _ = _ =>
        destruct (decide (k ∈ ots)) as [Hk|Hk]
    end.
    + split.
      * destruct (String.eqb order_type "all") eqn:E.
        -- apply String.eqb_eq in E. right. split; [assumption|].
           apply elem_of_cons in Hk as [-> | Hk]; [now left|].
           apply list_elem_of_singleton in Hk. now right.
        -- apply list_elem_of_singleton in Hk. now left.
      * destruct (Hin Hk) as [Heq | (rows & Hrows & Hshape)].
        -- rewrite Heq, lookup_insert_ne, lookup_empty in Hv by congruence.
           discriminate Hv.
        -- rewrite Hrows in Hv. injection Hv as <-. eauto.
    + rewrite (Hout Hk), lookup_insert_ne, lookup_empty in Hv by congruence.
      discriminate Hv.
Qed.

(** X29: with both sides asked for and no depth limit, or one of two or
    more, both sides are in the result, each with all the entries of
    the book, in their order. *)
Theorem get_orderbook_both_sides (asset : TradingPair) (limit : option Z) :
  match limit with Some n => (2 <= n)%Z | None => True end ->
  get_orderbook' asset "all" limit =
  let* ccxt_symbol := get_symbol asset in
  let* order_book :=
    fetch_order_book ccxt_symbol
      (match limit with Some n => <["depth" := VInt n]> ∅ | None => ∅ end) in
  let* ts := dict_get order_book "timestamp" in
  let* last_traded := from_ms_timestamp ts in
  let* bids := dict_get order_book "bids" in
  let* bid_entries := iterate bids in
  let* bid_rows := map_result order_entry' bid_entries in
  let* asks := dict_get order_book "asks" in
  let* ask_entries := iterate asks in
  let* ask_rows := map_result order_entry' ask_entries in
  Ok (<["asks" := VList ask_rows]>
        (<["bids" := VList bid_rows]> (<["last_traded" := last_traded]> ∅))).
Proof.
  intros Hn. unfold get_orderbook.
  destruct (get_symbol asset) as [sym|]; simpl; [|reflexivity].
  destruct (fetch_order_book sym _) as [ob|]; simpl; [|reflexivity].
  destruct (dict_get ob "timestamp") as [ts|]; simpl; [|reflexivity].
  destruct (from_ms_timestamp ts) as [lt|]; simpl; [|reflexivity].
  assert (H0 : past_limit limit 0 = false)
    by (destruct limit; simpl; [lia|reflexivity]).
  assert (H1 : past_limit limit (0 + 1) = false)
    by (destruct limit; simpl; [lia|reflexivity]).
  rewrite H0.
  destruct (dict_get ob "bids") as [bids|]; simpl; [|reflexivity].
  destruct (iterate bids) as [bes|]; simpl; [|reflexivity].
  destruct (map_result order_entry' bes) as [brs|]; simpl; [|reflexivity].
  rewrite H1.
  destruct (dict_get ob "asks") as [asks|]; simpl; [|reflexivity].
  destruct (iterate asks) as [aes|]; simpl; [|reflexivity].
  now destruct (map_result order_entry' aes).
Qed.

End OrderBookAgain.

Lemma get_orderbook_no_depth_witness :
  get_orderbook ms_stub no_text_floats book_stub btc_usd "all" (Some 0%Z)
  = Ok (<["last_traded" := VTimestamp 1500000000000000000]> ∅).
Proof.
  rewrite (get_orderbook_no_depth ms_stub no_text_floats book_stub btc_usd "all" 0)
    by lia.
  reflexivity.
Defined.

Lemma get_orderbook_unknown_side_witness :
  get_orderbook ms_stub no_text_floats book_stub btc_usd "trades" (Some 5%Z)
  = Raise (KeyError "trades").
Proof.
  apply (get_orderbook_unknown_side ms_stub no_text_floats book_stub btc_usd
           "trades" "BTC/USD" (Some 5%Z) example_book (VInt 1500000000000)
           (VTimestamp 1500000000000000000));
    solve [discriminate | reflexivity | vm_compute; reflexivity].
Defined.

Lemma get_orderbook_result_witness :
  is_Some (example_bids !! "last_traded") /\
  forall k v,
    example_bids !! k = Some v -> k <> "last_traded" ->
    (k = "bids" \/ ("bids" = "all" /\ (k = "bids" \/ k = "asks"))) /\
    exists rows, v = VList rows /\ Forall is_rate_quantity rows.
Proof.
  apply (get_orderbook_result ms_stub no_text_floats book_stub btc_usd "bids" None
           example_bids).
  vm_compute. reflexivity.
Defined.

Lemma get_orderbook_both_sides_witness :
  get_orderbook ms_stub no_text_floats book_stub btc_usd "all" (Some 2%Z)
  = Ok (<["asks" := VList [rate_quantity 101 4]]>
          (<["bids" := VList [rate_quantity 100 1; rate_quantity 99 2;
                              rate_quantity 98 3]]>
             (<["last_traded" := VTimestamp 1500000000000000000]> ∅))).
Proof.
  rewrite (get_orderbook_both_sides ms_stub no_text_floats book_stub btc_usd
             (Some 2%Z)) by (simpl; lia).
  vm_compute. reflexivity.
Defined.
